(** * Bridge transport facade (src/util/util_bridgecommand.h)

    A shallow embedding of the [Bridge<BridgeId>] class template and of its
    nested [Command] class.  The header only holds the inline members; the
    circular buffers behind [commands] and [data], the helpers of
    util_common.h and the three out-of-line members [syncDataQueue],
    [waitForCommand] and [pop_front] live in other files.  They are taken as
    interfaces here, and a small executable instance of each is given
    further down so that every operation can be run on concrete queues. *)

From Stdlib Require Import ZArith List Bool String Lia.
Import ListNotations.
Local Open Scope Z_scope.

(** ** Scalar types of the header *)

(** [using DataT = uint32_t]; [size_t]; [DWORD].  All are unsigned machine
    integers, kept as [Z]. *)
Definition DataT := Z.
Definition size_t := Z.
Definition DWORD := Z.

(** [sizeof(DataT)] *)
Definition sizeof_DataT : Z := 4.

(** Raw object representations ([void*] payloads, [T&] targets): one [Z] in
    [0, 256) per byte. *)
Definition bytes := list Z.

(** [sizeof(T)] of an object given by its representation. *)
Definition sizeof (obj : bytes) : size_t := Z.of_nat (List.length obj).

(** [uint8_t*] / [void*] cursors into the shared buffer. *)
Inductive Ptr : Type :=
| nullptr
| Addr (offset : Z).

(** A returned [const size_t&]: a reference to a live [size_t] holding
    [value], or a reference bound to a temporary that is gone once the
    function has returned. *)
Inductive SizeRef : Type :=
| RefTo (value : size_t)
| Dangling.

(** [std::atomic<bool>* pbEarlyOutSignal]: null, or the identity of a flag
    some other thread may raise. *)
Inductive AtomicBoolPtr : Type :=
| NoSignal
| Signal (id : nat).

(** [bridge_util::Result].  The header uses [Success] and [Failure]; the
    spec adds [Timeout]. *)
Inductive Result : Type := Success | Failure | Timeout.

Definition Result_eqb (a b : Result) : bool :=
  match a, b with
  | Success, Success | Failure, Failure | Timeout, Timeout => true
  | _, _ => false
  end.

(** Modelled from the spec: util_commands.h is not part of the sources.  The
    header names [Commands::Bridge_Any] and [Commands::Bridge_Response];
    every other command id is an [Api] call. *)
Inductive D3D9Command : Type :=
| Bridge_Any
| Bridge_Response
| Api (id : Z).

Definition D3D9Command_eqb (a b : D3D9Command) : bool :=
  match a, b with
  | Bridge_Any, Bridge_Any => true
  | Bridge_Response, Bridge_Response => true
  | Api x, Api y => x =? y
  | _, _ => false
  end.

(** Modelled from the spec: the [Header] record, "command id, opaque handle,
    flags". *)
Record Header : Type := mkHeader {
  command : D3D9Command;
  pHandle : Z;
  commandFlags : Z
}.

(** Compile-time switches the header depends on. *)
Record BuildConfig : Type := mkBuildConfig {
  USE_BLOCKING_QUEUE : bool;   (* #ifdef USE_BLOCKING_QUEUE *)
  NDEBUG : bool;               (* assert() compiled out *)
  size_bits : Z                (* width of size_t *)
}.

(** ** Collaborators *)

(** The command queue members the header calls. *)
Class CommandQueueOps (CmdQ : Type) : Type := {
  commands_begin_write_batch : CmdQ -> Result * CmdQ;
  commands_end_write_batch : CmdQ -> size_t * CmdQ
}.

(** The data queue members the header calls.  [data_pull_obj] is
    the [pull] overload with an out-pointer, [data_pull_and_copy] is
    [pull_and_copy] on a [T&] (it receives
    the target object and hands back its new contents), [data_push_blob] is
    the two-argument [push] of a size and a pointer. *)
Class DataQueueOps (DataQ : Type) : Type := {
  data_pull : DataQ -> DataT * DataQ;
  data_pull_obj : DataQ -> (DataT * Ptr) * DataQ;
  data_pull_and_copy : bytes -> DataQ -> (DataT * bytes) * DataQ;
  data_get_pos : DataQ -> size_t;
  data_begin_batch : DataQ -> Result * DataQ;
  data_end_batch : DataQ -> size_t * DataQ;
  data_push : DataT -> DataQ -> Result * DataQ;
  data_push_blob : DataT -> bytes -> DataQ -> Result * DataQ;
  data_push_many : list DataT -> DataQ -> Result * DataQ;
  data_begin_blob_push : size_t -> Ptr -> DataQ -> (Result * Ptr) * DataQ;
  data_end_blob_push : DataQ -> DataQ
}.

(** [WriterChannel] / [ReaderChannel]: the two queues and the flag
    [serverResetPosRequired] that sits next to them in shared memory. *)
Record Channel (CmdQ DataQ : Type) : Type := mkChannel {
  commands : CmdQ;
  data : DataQ;
  serverResetPosRequired : bool
}.
Arguments mkChannel {CmdQ DataQ}.
Arguments commands {CmdQ DataQ}.
Arguments data {CmdQ DataQ}.
Arguments serverResetPosRequired {CmdQ DataQ}.

(** The process-wide state the class works on: [gbBridgeRunning], the two
    static channel pointers (taken as bound, that is after [init]) and the
    rest of the world ([Env]: the peer process, other threads, the
    configuration). *)
Record BridgeState (CmdQ DataQ Env : Type) : Type := mkBridgeState {
  gbBridgeRunning : bool;
  s_pWriterChannel : Channel CmdQ DataQ;
  s_pReaderChannel : Channel CmdQ DataQ;
  env : Env
}.
Arguments mkBridgeState {CmdQ DataQ Env}.
Arguments gbBridgeRunning {CmdQ DataQ Env}.
Arguments s_pWriterChannel {CmdQ DataQ Env}.
Arguments s_pReaderChannel {CmdQ DataQ Env}.
Arguments env {CmdQ DataQ Env}.

(** The members of [Bridge] that are only declared in the header. *)
Class BridgeImpl (State : Type) : Type := {
  impl_syncDataQueue : size_t -> bool -> State -> State;
  impl_waitForCommand :
    D3D9Command -> DWORD -> AtomicBoolPtr -> State -> Result * State;
  impl_pop_front : State -> Header * State
}.

(** What util_common.h supplies: [align<size_t>] and the [RESULT_FAILURE]
    macro. *)
Class UtilCommon : Type := {
  align : size_t -> size_t -> size_t;
  RESULT_FAILURE : Result -> bool
}.

(** ** Calls that leave the header

    Every call into a collaborator that can have an effect is recorded, in
    program order. *)
Inductive Call : Type :=
| Commands_begin_write_batch
| Commands_end_write_batch
| Data_pull
| Data_pull_obj
| Data_pull_and_copy (sizeofT : size_t)
| Data_begin_batch
| Data_end_batch
| Data_push (obj : DataT)
| Data_push_blob (size : DataT) (obj : bytes)
| Data_push_many (objs : list DataT)
| Data_begin_blob_push (size : size_t)
| Data_end_blob_push
| SyncDataQueue (expectedMemUsage : size_t) (posResetOnLastIndex : bool)
| WaitForCommand (cmd : D3D9Command) (overrideTimeoutMS : DWORD)
                 (pbEarlyOutSignal : AtomicBoolPtr)
| Pop_front
| Logger_err (msg : string).

Definition is_log (c : Call) : bool :=
  match c with Logger_err _ => true | _ => false end.

Definition is_pop_front (c : Call) : bool :=
  match c with Pop_front => true | _ => false end.

Definition count (p : Call -> bool) (l : list Call) : nat :=
  List.length (filter p l).

(** ** The class [Bridge<BridgeId>] *)

Section Bridge.

Context {CmdQ DataQ Env : Type}.
Context {cmdq_ops : CommandQueueOps CmdQ}.
Context {dataq_ops : DataQueueOps DataQ}.
Context {bridge_impl : BridgeImpl (BridgeState CmdQ DataQ Env)}.
Context {util : UtilCommon}.
Variable cfg : BuildConfig.

Local Abbreviation State := (BridgeState CmdQ DataQ Env).

(** The process state together with the record of calls made so far. *)
Record Machine : Type := mkMachine {
  bridge : State;
  calls : list Call
}.

(** A member function either returns, or the process is aborted by a
    failed [assert]. *)
Inductive Outcome (A : Type) : Type :=
| Returns (a : A) (m : Machine)
| Aborts (m : Machine).
Arguments Returns {A}.
Arguments Aborts {A}.

Definition Exec (A : Type) : Type := Machine -> Outcome A.

Definition ret {A} (a : A) : Exec A := fun m => Returns a m.

Definition bind {A B} (c : Exec A) (k : A -> Exec B) : Exec B :=
  fun m =>
    match c m with
    | Returns a m' => k a m'
    | Aborts m' => Aborts m'
    end.

Notation "x <- c ;; k" := (bind c (fun x => k))
  (at level 61, c at next level, right associativity).
Notation "c ;;; k" := (bind c (fun _ => k))
  (at level 61, right associativity).

(** The machine an execution ends in, and the value it returns if any. *)
Definition final {A} (o : Outcome A) : Machine :=
  match o with Returns _ m => m | Aborts m => m end.

Definition returned {A} (o : Outcome A) : option A :=
  match o with Returns a _ => Some a | Aborts _ => None end.

(** *** State accessors *)

Definition record_call (c : Call) : Exec unit :=
  fun m => Returns tt (mkMachine (bridge m) (calls m ++ [c])).

Definition read {A} (f : State -> A) : Exec A :=
  fun m => Returns (f (bridge m)) m.

Definition run {A} (f : State -> A * State) : Exec A :=
  fun m => let (a, s) := f (bridge m) in Returns a (mkMachine s (calls m)).

Definition set_reader_data (q : DataQ) (s : State) : State :=
  let r := s_pReaderChannel s in
  mkBridgeState (gbBridgeRunning s) (s_pWriterChannel s)
    (mkChannel (commands r) q (serverResetPosRequired r)) (env s).

Definition set_reader_flag (b : bool) (s : State) : State :=
  let r := s_pReaderChannel s in
  mkBridgeState (gbBridgeRunning s) (s_pWriterChannel s)
    (mkChannel (commands r) (data r) b) (env s).

Definition set_writer_data (q : DataQ) (s : State) : State :=
  let w := s_pWriterChannel s in
  mkBridgeState (gbBridgeRunning s)
    (mkChannel (commands w) q (serverResetPosRequired w))
    (s_pReaderChannel s) (env s).

Definition set_writer_commands (q : CmdQ) (s : State) : State :=
  let w := s_pWriterChannel s in
  mkBridgeState (gbBridgeRunning s)
    (mkChannel q (data w) (serverResetPosRequired w))
    (s_pReaderChannel s) (env s).

(** [getReaderChannel().data->f(...)] *)
Definition on_reader_data {A} (c : Call) (f : DataQ -> A * DataQ) : Exec A :=
  record_call c ;;;
  run (fun s => let (a, q) := f (data (s_pReaderChannel s)) in
                (a, set_reader_data q s)).

(** [s_pWriterChannel->data->f(...)] *)
Definition on_writer_data {A} (c : Call) (f : DataQ -> A * DataQ) : Exec A :=
  record_call c ;;;
  run (fun s => let (a, q) := f (data (s_pWriterChannel s)) in
                (a, set_writer_data q s)).

(** [getWriterChannel().commands->f(...)] *)
Definition on_writer_commands {A} (c : Call) (f : CmdQ -> A * CmdQ)
  : Exec A :=
  record_call c ;;;
  run (fun s => let (a, q) := f (commands (s_pWriterChannel s)) in
                (a, set_writer_commands q s)).

(** [Logger::err(msg)] *)
Definition Logger_err_ (msg : string) : Exec unit :=
  record_call (Logger_err msg).

(** [assert(cond)]: a no-op under NDEBUG, otherwise the process stops
    there when [cond] is false. *)
Definition assert_ (cond : bool) : Exec unit :=
  fun m =>
    if NDEBUG cfg then Returns tt m
    else if cond then Returns tt m
    else Aborts m.

(** [if (c) { body }] *)
Definition when (c : bool) (body : Exec unit) : Exec unit :=
  if c then body else ret tt.

(** [a && b] with C++ short-circuit evaluation. *)
Definition and_then (a b : Exec bool) : Exec bool :=
  x <- a ;; if x then b else ret false.

(** *** Out-of-line members, as called from the header *)

Definition syncDataQueue (expectedMemUsage : size_t)
           (posResetOnLastIndex : bool) : Exec unit :=
  record_call (SyncDataQueue expectedMemUsage posResetOnLastIndex) ;;;
  run (fun s =>
         (tt, impl_syncDataQueue expectedMemUsage posResetOnLastIndex s)).

Definition waitForCommand (cmd : D3D9Command) (overrideTimeoutMS : DWORD)
           (pbEarlyOutSignal : AtomicBoolPtr) : Exec Result :=
  record_call (WaitForCommand cmd overrideTimeoutMS pbEarlyOutSignal) ;;;
  run (impl_waitForCommand cmd overrideTimeoutMS pbEarlyOutSignal).

Definition pop_front : Exec Header :=
  record_call Pop_front ;;; run impl_pop_front.

(** *** Channel writing methods *)

Definition begin_batch : Exec Result :=
  if USE_BLOCKING_QUEUE cfg then
    running <- read gbBridgeRunning ;;
    if running then
      on_writer_commands Commands_begin_write_batch
                         commands_begin_write_batch
    else ret Failure
  else ret Failure.

Definition end_batch : Exec size_t :=
  if USE_BLOCKING_QUEUE cfg then
    running <- read gbBridgeRunning ;;
    if running then
      on_writer_commands Commands_end_write_batch commands_end_write_batch
    else ret 0
  else ret 0.

(** *** Channel reading methods *)

Definition get_data_pos : Exec size_t :=
  read (fun s => data_get_pos (data (s_pReaderChannel s))).

Definition reader_flag : Exec bool :=
  read (fun s => serverResetPosRequired (s_pReaderChannel s)).

Definition clear_reader_flag : Exec unit :=
  run (fun s => (tt, set_reader_flag false s)).

(** The block under "Check if the server completed a loop". *)
Definition check_server_loop (prevPos : size_t) : Exec unit :=
  looped <- and_then reader_flag
                     (pos <- get_data_pos ;; ret (pos <? prevPos)) ;;
  when looped clear_reader_flag.

Definition get_data : Exec DataT :=
  prevPos <- get_data_pos ;;
  retval <- on_reader_data Data_pull data_pull ;;
  check_server_loop prevPos ;;;
  ret retval.

(** [get_data(void** obj)]: returns the word and the pointer stored
    through [obj]. *)
Definition get_data_obj : Exec (DataT * Ptr) :=
  prevPos <- get_data_pos ;;
  retval <- on_reader_data Data_pull_obj data_pull_obj ;;
  check_server_loop prevPos ;;;
  ret retval.

Definition copy_data_size_mismatch : string :=
  "DataQueue copy data: Size of source and target object does not match!".

(** [return retval;] in a function returning [const size_t&], where
    [retval] is a [const DataT&] and [DataT] is [uint32_t].  Where [size_t]
    is the 32-bit type the reference is the one the pull handed out; where
    it is any other type the word is converted into a temporary [size_t],
    the reference is bound to that, and the temporary is destroyed at the
    end of the return statement. *)
Definition return_as_size_ref (retval : DataT) : SizeRef :=
  if size_bits cfg =? 32 then RefTo retval else Dangling.

(** [copy_data<T>(T& obj, bool checkSize)]: gives back the returned
    reference and the new contents of [obj]. *)
Definition copy_data (obj : bytes) (checkSize : bool)
  : Exec (SizeRef * bytes) :=
  prevPos <- get_data_pos ;;
  r <- on_reader_data (Data_pull_and_copy (sizeof obj))
                      (data_pull_and_copy obj) ;;
  let retval := fst r in
  when checkSize
    (assert_ (retval =? sizeof obj) ;;;
     when (negb (retval =? sizeof obj))
          (Logger_err_ copy_data_size_mismatch)) ;;;
  check_server_loop prevPos ;;;
  ret (return_as_size_ref retval, snd r).

Definition begin_read_data : Exec Result :=
  running <- read gbBridgeRunning ;;
  if running then on_reader_data Data_begin_batch data_begin_batch
  else ret Failure.

Definition end_read_data : Exec size_t :=
  running <- read gbBridgeRunning ;;
  if running then on_reader_data Data_end_batch data_end_batch
  else ret 0.

(** *** Channel waiting methods *)

Definition waitForCommandAndDiscard (cmd : D3D9Command)
           (overrideTimeoutMS : DWORD) (pbEarlyOutSignal : AtomicBoolPtr)
  : Exec Result :=
  result <- waitForCommand cmd overrideTimeoutMS pbEarlyOutSignal ;;
  when (Result_eqb Success result) (pop_front ;;; ret tt) ;;;
  ret result.

(** *** The nested class [Command] *)

Definition size_wrap (z : Z) : size_t := z mod 2 ^ size_bits cfg.

(** [align<size_t>(size, sizeof(DataT)) / sizeof(DataT) + 1] *)
Definition memUsed (size : size_t) : size_t :=
  size_wrap (align size sizeof_DataT / sizeof_DataT + 1).

Definition send_data_failed : string :=
  "DataQueue send_data: Failed to send data!".
Definition send_data_object_failed : string :=
  "DataQueue send_data: Failed to send data object!".
Definition send_many_failed : string :=
  "DataQueue send_many: Failed to send multiple m_writerChanneldata items!".
Definition begin_data_blob_failed : string :=
  "DataQueue begin_data_blob: Failed to begin sending a data blob!".

Definition send_data (obj : DataT) : Exec unit :=
  running <- read gbBridgeRunning ;;
  when running
    (syncDataQueue 1 false ;;;
     result <- on_writer_data (Data_push obj) (data_push obj) ;;
     when (RESULT_FAILURE result) (Logger_err_ send_data_failed)).

(** [send_data(const DataT size, const void* obj)] *)
Definition send_data_blob (size : DataT) (obj : bytes) : Exec unit :=
  running <- read gbBridgeRunning ;;
  when running
    (let memUsed := memUsed size in
     syncDataQueue memUsed true ;;;
     result <- on_writer_data (Data_push_blob size obj)
                              (data_push_blob size obj) ;;
     when (RESULT_FAILURE result) (Logger_err_ send_data_object_failed)).

(** [send_many(const Ts... objs)]; [sizeof...(Ts)] is the number of
    arguments. *)
Definition send_many (objs : list DataT) : Exec unit :=
  running <- read gbBridgeRunning ;;
  when running
    (let count := Z.of_nat (List.length objs) in
     syncDataQueue count false ;;;
     result <- on_writer_data (Data_push_many objs) (data_push_many objs) ;;
     when (RESULT_FAILURE result) (Logger_err_ send_many_failed)).

Definition begin_data_blob (size : size_t) : Exec Ptr :=
  let blobPacketPtr := nullptr in
  running <- read gbBridgeRunning ;;
  if running then
    let memUsed := memUsed size in
    syncDataQueue memUsed true ;;;
    r <- on_writer_data (Data_begin_blob_push size)
                        (data_begin_blob_push size blobPacketPtr) ;;
    let (result, blobPacketPtr) := (r : Result * Ptr) in
    when (RESULT_FAILURE result) (Logger_err_ begin_data_blob_failed) ;;;
    ret blobPacketPtr
  else ret blobPacketPtr.

Definition end_data_blob : Exec unit :=
  running <- read gbBridgeRunning ;;
  when running
    (on_writer_data Data_end_blob_push
                    (fun q => (tt, data_end_blob_push q))).

End Bridge.

Arguments Machine : clear implicits.
Arguments mkMachine {CmdQ DataQ Env}.
Arguments bridge {CmdQ DataQ Env}.
Arguments calls {CmdQ DataQ Env}.
Arguments Returns {CmdQ DataQ Env A}.
Arguments Aborts {CmdQ DataQ Env A}.

(** ** An executable instance of the collaborators

    Modelled from the spec: everything in this module.  None of it is in the
    header; it gives the interfaces above one concrete reading, following
    the spec's description of the circular buffer, the two queues and the
    out-of-line members, so that the member functions can be evaluated. *)

Module Model.

(** Modelled from the spec: the data queue of util_circularbuffer.h, "a
    ring of fixed-width slots with position counters that increase and wrap
    modulo capacity".  [consumed] counts the words pulled so far, [stored]
    holds the words pushed and not yet pulled (oldest first), [readBatch]
    is the value of [consumed] when the open read batch began. *)
Record DataQueue : Type := mkDataQueue {
  capacity : Z;
  consumed : Z;
  stored : list DataT;
  wantsReset : bool;
  readBatch : option Z
}.

Definition produced (q : DataQueue) : Z :=
  consumed q + Z.of_nat (List.length (stored q)).

Definition free (q : DataQueue) : Z :=
  capacity q - Z.of_nat (List.length (stored q)).

Definition get_pos (q : DataQueue) : size_t := consumed q mod capacity q.

(** Drops [n] words from the front and advances the position. *)
Definition skip (n : Z) (q : DataQueue) : DataQueue :=
  mkDataQueue (capacity q) (consumed q + n)
              (skipn (Z.to_nat n) (stored q)) (wantsReset q) (readBatch q).

Definition append (ws : list DataT) (q : DataQueue) : Result * DataQueue :=
  if Z.of_nat (List.length ws) <=? free q then
    (Success, mkDataQueue (capacity q) (consumed q) (stored q ++ ws)
                          false (readBatch q))
  else (Failure, q).

(** Little-endian packing of bytes into 32-bit words and back. *)
Fixpoint pack (bs : bytes) : list DataT :=
  match bs with
  | [] => []
  | [a] => [a]
  | [a; b] => [a + 256 * b]
  | [a; b; c] => [a + 256 * b + 65536 * c]
  | a :: b :: c :: d :: rest =>
      (a + 256 * b + 65536 * c + 16777216 * d) :: pack rest
  end.

Definition unpack (ws : list DataT) : bytes :=
  flat_map (fun w => [w mod 256; (w / 256) mod 256;
                      (w / 65536) mod 256; (w / 16777216) mod 256]) ws.

(** Words a payload of [size] bytes occupies after its length word. *)
Definition payloadWords (size : Z) : Z :=
  (size + sizeof_DataT - 1) / sizeof_DataT.

Definition pull (q : DataQueue) : DataT * DataQueue :=
  (hd 0 (stored q), skip 1 q).

Definition pull_obj (q : DataQueue) : (DataT * Ptr) * DataQueue :=
  let size := hd 0 (stored q) in
  ((size, Addr (sizeof_DataT * ((consumed q + 1) mod capacity q))),
   skip (1 + payloadWords size) q).

Definition pull_and_copy (obj : bytes) (q : DataQueue)
  : (DataT * bytes) * DataQueue :=
  let size := hd 0 (stored q) in
  let words := firstn (Z.to_nat (payloadWords size)) (tl (stored q)) in
  let payload := firstn (Z.to_nat size) (unpack words) in
  let copied := firstn (List.length obj) payload in
  ((size, copied ++ skipn (List.length copied) obj),
   skip (1 + payloadWords size) q).

Definition begin_batch (q : DataQueue) : Result * DataQueue :=
  match readBatch q with
  | Some _ => (Failure, q)
  | None => (Success, mkDataQueue (capacity q) (consumed q) (stored q)
                                  (wantsReset q) (Some (consumed q)))
  end.

Definition end_batch (q : DataQueue) : size_t * DataQueue :=
  match readBatch q with
  | Some start =>
      (consumed q - start,
       mkDataQueue (capacity q) (consumed q) (stored q) (wantsReset q) None)
  | None => (0, q)
  end.

Definition push (obj : DataT) (q : DataQueue) : Result * DataQueue :=
  append [obj] q.

Definition push_blob (size : DataT) (obj : bytes) (q : DataQueue)
  : Result * DataQueue :=
  append (size :: pack (firstn (Z.to_nat size) obj)) q.

Definition push_many (objs : list DataT) (q : DataQueue)
  : Result * DataQueue :=
  append objs q.

(** The cursor handed out is the byte offset of the payload; the caller's
    bytes are not visible to the queue, the slots are zero-filled. *)
Definition begin_blob_push (size : size_t) (p : Ptr) (q : DataQueue)
  : (Result * Ptr) * DataQueue :=
  let (r, q') := append (size :: repeat 0 (Z.to_nat (payloadWords size))) q in
  match r with
  | Success =>
      ((Success, Addr (sizeof_DataT * ((produced q + 1) mod capacity q))), q')
  | _ => ((r, p), q')
  end.

Definition end_blob_push (q : DataQueue) : DataQueue := q.

#[global] Instance dataQueueOps : DataQueueOps DataQueue := {|
  data_pull := pull;
  data_pull_obj := pull_obj;
  data_pull_and_copy := pull_and_copy;
  data_get_pos := get_pos;
  data_begin_batch := begin_batch;
  data_end_batch := end_batch;
  data_push := push;
  data_push_blob := push_blob;
  data_push_many := push_many;
  data_begin_blob_push := begin_blob_push;
  data_end_blob_push := end_blob_push
|}.

(** Modelled from the spec: the command queue, "a ring buffer of command
    headers" with a pop position.  [written] lists every header pushed so
    far, [popped] counts the headers removed, [writeBatch] is the length of
    [written] when the open write batch began. *)
Record CommandQueue : Type := mkCommandQueue {
  written : list Header;
  popped : nat;
  writeBatch : option nat
}.

Definition front (q : CommandQueue) : option Header :=
  nth_error (written q) (popped q).

Definition begin_write_batch (q : CommandQueue) : Result * CommandQueue :=
  match writeBatch q with
  | Some _ => (Failure, q)
  | None => (Success, mkCommandQueue (written q) (popped q)
                                     (Some (List.length (written q))))
  end.

Definition end_write_batch (q : CommandQueue) : size_t * CommandQueue :=
  match writeBatch q with
  | Some start =>
      (Z.of_nat (List.length (written q) - start),
       mkCommandQueue (written q) (popped q) None)
  | None => (0, q)
  end.

#[global] Instance commandQueueOps : CommandQueueOps CommandQueue := {|
  commands_begin_write_batch := begin_write_batch;
  commands_end_write_batch := end_write_batch
|}.

(** Modelled from the spec: what can happen around the waiting thread during
    one polling interval: nothing, the peer pushes a header, another thread
    raises an early-out flag, or the application clears gbBridgeRunning. *)
Inductive Tick : Type :=
| Idle
| PeerPush (h : Header)
| Raise (id : nat)
| Shutdown.

(** Modelled from the spec: the rest of the world: what the peer and the
    other threads will do, the early-out flags raised so far, and the
    configured default timeout. *)
Record World : Type := mkWorld {
  schedule : list Tick;
  raised : list nat;
  commandTimeoutMs : DWORD
}.

Definition State : Type := BridgeState CommandQueue DataQueue World.

Definition push_reader_command (h : Header) (s : State) : State :=
  let r := s_pReaderChannel s in
  let q := commands r in
  mkBridgeState (gbBridgeRunning s) (s_pWriterChannel s)
    (mkChannel (mkCommandQueue (written q ++ [h]) (popped q) (writeBatch q))
               (data r) (serverResetPosRequired r))
    (env s).

(** Modelled from the spec: one polling interval elapses. *)
Definition tick (s : State) : State :=
  let w := env s in
  match schedule w with
  | [] => s
  | t :: rest =>
      let w' := mkWorld rest (raised w) (commandTimeoutMs w) in
      let s' := mkBridgeState (gbBridgeRunning s) (s_pWriterChannel s)
                              (s_pReaderChannel s) w' in
      match t with
      | Idle => s'
      | PeerPush h => push_reader_command h s'
      | Raise id =>
          mkBridgeState (gbBridgeRunning s) (s_pWriterChannel s)
            (s_pReaderChannel s)
            (mkWorld rest (id :: raised w) (commandTimeoutMs w))
      | Shutdown =>
          mkBridgeState false (s_pWriterChannel s) (s_pReaderChannel s) w'
      end
  end.

Definition matches (expected : D3D9Command) (h : Header) : bool :=
  D3D9Command_eqb expected Bridge_Any
  || D3D9Command_eqb (command h) expected.

Definition front_matches (expected : D3D9Command) (s : State) : bool :=
  match front (commands (s_pReaderChannel s)) with
  | Some h => matches expected h
  | None => false
  end.

Definition signalled (sig : AtomicBoolPtr) (s : State) : bool :=
  match sig with
  | NoSignal => false
  | Signal id => existsb (Nat.eqb id) (raised (env s))
  end.

(** Modelled from the spec: [waitForCommand], defined out of line.  It
    "blocks the calling thread until a header matching [expected] (or any
    header, if Any) is available, the timeout elapses, or the early-out
    signal becomes true"; a bridge that is not running is a [Failure] in
    wait paths; the header is only peeked.  The spec leaves the result of
    an early out open between failure and timeout; [Failure] is used. *)
Fixpoint wait_poll (budget : nat) (expected : D3D9Command)
         (sig : AtomicBoolPtr) (s : State) : Result * State :=
  if negb (gbBridgeRunning s) then (Failure, s)
  else if front_matches expected s then (Success, s)
  else if signalled sig s then (Failure, s)
  else match budget with
       | O => (Timeout, s)
       | S b => wait_poll b expected sig (tick s)
       end.

(** A timeout of 0 stands for the configured default. *)
Definition waitForCommand (expected : D3D9Command) (timeoutMs : DWORD)
           (sig : AtomicBoolPtr) (s : State) : Result * State :=
  let t := if timeoutMs =? 0 then commandTimeoutMs (env s) else timeoutMs in
  wait_poll (Z.to_nat t) expected sig s.

Definition noHeader : Header := mkHeader Bridge_Any 0 0.

(** Modelled from the spec: [pop_front], defined out of line: "removes and
    returns the next Header from the reader's command queue".  Without a
    pending header the pop position still moves, past the write position. *)
Definition pop_front (s : State) : Header * State :=
  let r := s_pReaderChannel s in
  let q := commands r in
  (nth (popped q) (written q) noHeader,
   mkBridgeState (gbBridgeRunning s) (s_pWriterChannel s)
     (mkChannel (mkCommandQueue (written q) (S (popped q)) (writeBatch q))
                (data r) (serverResetPosRequired r))
     (env s)).

(** Modelled from the spec: [syncDataQueue], defined out of line: it
    reserves [expectedMemUsage] words in the writer's data queue, marks the
    channel's loop flag when the reservation reaches the end of the ring,
    and notes a requested position reset on the queue.  Waiting for the
    peer to free space is outside this sequential model. *)
Definition syncDataQueue (expectedMemUsage : size_t)
           (posResetOnLastIndex : bool) (s : State) : State :=
  let w := s_pWriterChannel s in
  let q := data w in
  let reaches :=
    capacity q <=? produced q mod capacity q + expectedMemUsage in
  mkBridgeState (gbBridgeRunning s)
    (mkChannel (commands w)
       (mkDataQueue (capacity q) (consumed q) (stored q)
                    (posResetOnLastIndex && reaches) (readBatch q))
       (serverResetPosRequired w || reaches))
    (s_pReaderChannel s) (env s).

#[global] Instance bridgeImpl : BridgeImpl State := {|
  impl_syncDataQueue := syncDataQueue;
  impl_waitForCommand := waitForCommand;
  impl_pop_front := pop_front
|}.

(** Modelled from the spec: [align] of util_common.h rounds its first
    argument up to a multiple of the second, in [size_t] arithmetic of
    [bits] bits ("align(20,4)/4+1 = 6"). *)
Definition align_up (bits : Z) (what to : size_t) : size_t :=
  (((what + to - 1) mod 2 ^ bits) / to * to) mod 2 ^ bits.

(** Modelled from the spec: the [RESULT_FAILURE] macro of util_common.h,
    true of every result but [Success]. *)
Definition result_failure (r : Result) : bool := negb (Result_eqb r Success).

Definition utilCommon (bits : Z) : UtilCommon := {|
  align := align_up bits;
  RESULT_FAILURE := result_failure
|}.

#[global] Instance utilCommon64 : UtilCommon := utilCommon 64.

(** A release build of the 64-bit server with blocking queues, and the
    same with assertions compiled in. *)
Definition release : BuildConfig := mkBuildConfig true true 64.
Definition debug : BuildConfig := mkBuildConfig true false 64.

Definition MachineT : Type := Machine CommandQueue DataQueue World.

Definition emptyData (cap : Z) : DataQueue := mkDataQueue cap 0 [] false None.
Definition emptyCommands : CommandQueue := mkCommandQueue [] 0 None.
Definition quiet : World := mkWorld [] [] 100.

Definition boot (running : bool) : MachineT :=
  mkMachine
    (mkBridgeState running
       (mkChannel emptyCommands (emptyData 8) false)
       (mkChannel emptyCommands (emptyData 8) false)
       quiet)
    [].

End Model.


(** ** What the properties below observe *)

Section Observations.

Context {CmdQ DataQ Env : Type}.
Context {dataq_ops : DataQueueOps DataQ}.
Context {util : UtilCommon}.

Local Abbreviation Machine := (Machine CmdQ DataQ Env).

(** The reader channel's loop flag, data queue and data position. *)
Definition loop_flag (m : Machine) : bool :=
  serverResetPosRequired (s_pReaderChannel (bridge m)).

Definition reader_queue (m : Machine) : DataQ :=
  data (s_pReaderChannel (bridge m)).

Definition reader_pos (m : Machine) : size_t :=
  data_get_pos (reader_queue m).

Definition writer_queue (m : Machine) : DataQ :=
  data (s_pWriterChannel (bridge m)).

Definition running (m : Machine) : bool := gbBridgeRunning (bridge m).

(** Between [m] and [m'] the loop flag went from set to clear. *)
Definition cleared (m m' : Machine) : Prop :=
  loop_flag m = true /\ loop_flag m' = false.

(** The flag was set in [m] and the position in [m'] is below the one in
    [m]. *)
Definition wrapped (m m' : Machine) : Prop :=
  loop_flag m = true /\ reader_pos m' < reader_pos m.

(** The wraparound acknowledgment: cleared exactly on a wrap with the flag
    set, untouched otherwise. *)
Definition acknowledges_wrap (m m' : Machine) : Prop :=
  (cleared m m' <-> wrapped m m') /\
  (~ wrapped m m' -> loop_flag m' = loop_flag m).

(** The flag kept its value or fell from set to clear. *)
Definition never_raised (m m' : Machine) : Prop :=
  loop_flag m' = loop_flag m \/ cleared m m'.

(** The [Logger::err] call a failed push is answered with. *)
Definition log_on_failure (result : Result) (msg : string) : list Call :=
  if RESULT_FAILURE result then [Logger_err msg] else [].

End Observations.

(** ** Concrete runs *)

Module Scenario.

Import Model.

Definition response : Header := mkHeader Bridge_Response 7 0.

(** A reader two words short of the end of an 8-word ring, with a 4-byte blob
    pending and the loop flag set by the writer. *)
Definition beforeWrap : MachineT :=
  mkMachine
    (mkBridgeState true
       (mkChannel emptyCommands (emptyData 8) false)
       (mkChannel emptyCommands
          (mkDataQueue 8 6 [4; 67305985] false None) true)
       quiet)
    [].

(** A reader whose next blob is 8 bytes long. *)
Definition eightBytesPending : MachineT :=
  mkMachine
    (mkBridgeState true
       (mkChannel emptyCommands (emptyData 8) false)
       (mkChannel emptyCommands
          (mkDataQueue 8 0 [8; 67305985; 134678021] false None) false)
       quiet)
    [].

(** A reader with an empty command queue whose peer pushes a response during
    the second polling interval. *)
Definition awaitingResponse : MachineT :=
  mkMachine
    (mkBridgeState true
       (mkChannel emptyCommands (emptyData 8) false)
       (mkChannel emptyCommands (emptyData 8) false)
       (mkWorld [Idle; PeerPush response] [] 100))
    [].

Definition fourBytes : bytes := [0; 0; 0; 0].

(** The reader of [beforeWrap] again, but with an 8-byte blob pending: the
    pull takes the position from 6 to 1. *)
Definition eightBytesBeforeWrap : MachineT :=
  mkMachine
    (mkBridgeState true
       (mkChannel emptyCommands (emptyData 8) false)
       (mkChannel emptyCommands
          (mkDataQueue 8 6 [8; 67305985; 134678021] false None) true)
       quiet)
    [].

Definition twentyBytes : bytes := repeat 1 20.

End Scenario.

(** ** Channel names *)

(** The role a translation unit is compiled for: REMIX_BRIDGE_CLIENT or
    REMIX_BRIDGE_SERVER. *)
Inductive BridgeRole : Type :=
| REMIX_BRIDGE_CLIENT
| REMIX_BRIDGE_SERVER.

Definition kWriterChannelName (role : BridgeRole) : string :=
  match role with
  | REMIX_BRIDGE_CLIENT => "Client2Server"
  | REMIX_BRIDGE_SERVER => "Server2Client"
  end.

Definition kReaderChannelName (role : BridgeRole) : string :=
  match role with
  | REMIX_BRIDGE_CLIENT => "Server2Client"
  | REMIX_BRIDGE_SERVER => "Client2Server"
  end.

(** ** Callers: the response macros and sequences of calls *)

(** What config/global_options.h supplies to the macros. *)
Class GlobalOptions : Type := {
  getAckTimeout : DWORD;
  getSendAllServerResponses : bool
}.

(** [HRESULT] is a signed 32-bit integer; [D3D_OK] is 0. *)
Definition HRESULT := Z.
Definition D3D_OK : HRESULT := 0.

(** The cast [(HRESULT) w] of a 32-bit unsigned word: the same bit pattern
    read as two's complement. *)
Definition to_HRESULT (w : DataT) : HRESULT :=
  let u := w mod 2 ^ 32 in
  if u <? 2 ^ 31 then u else u - 2 ^ 32.

Definition is_pull (c : Call) : bool :=
  match c with
  | Data_pull | Data_pull_obj | Data_pull_and_copy _ => true
  | _ => false
  end.

(** The calls a [Command] may make: reservations, writer-side data queue
    members and log lines. *)
Definition is_command_call (c : Call) : bool :=
  match c with
  | SyncDataQueue _ _ | Data_push _ | Data_push_blob _ _ | Data_push_many _
  | Data_begin_blob_push _ | Data_end_blob_push | Logger_err _ => true
  | _ => false
  end.

(** One of the three reading members, as a value. *)
Inductive ReadOp : Type :=
| Read_word
| Read_obj
| Read_copy (obj : bytes) (checkSize : bool).

(** One of the five sending members of [Command], as a value. *)
Inductive SendOp : Type :=
| Send_word (obj : DataT)
| Send_blob (size : DataT) (payload : bytes)
| Send_many (objs : list DataT)
| Begin_blob (size : size_t)
| End_blob.

Section Callers.

Context {CmdQ DataQ Env : Type}.
Context {cmdq_ops : CommandQueueOps CmdQ}.
Context {dataq_ops : DataQueueOps DataQ}.
Context {bridge_impl : BridgeImpl (BridgeState CmdQ DataQ Env)}.
Context {util : UtilCommon}.
Context {options : GlobalOptions}.
Variable cfg : BuildConfig.

Local Abbreviation State := (BridgeState CmdQ DataQ Env).
Local Abbreviation Machine := (Machine CmdQ DataQ Env).
Local Abbreviation Exec := (@Exec CmdQ DataQ Env).

Local Notation "x <- c ;; k" := (bind c (fun x => k))
  (at level 61, c at next level, right associativity).
Local Notation "c ;;; k" := (bind c (fun _ => k))
  (at level 61, right associativity).

(** The message [func " failed with: no response from server."]. *)
Definition no_response (func : string) : string :=
  (func ++ " failed with: no response from server.")%string.

(** [WAIT_FOR_SERVER_RESPONSE(func, value)].  The macro either makes the
    enclosing function return [value] ([Some value]) or falls through to
    the statement after it ([None]). *)
Definition WAIT_FOR_SERVER_RESPONSE {V : Type} (func : string) (value : V)
  : Exec (option V) :=
  let timeoutMs := getAckTimeout in
  result <- waitForCommandAndDiscard Bridge_Response timeoutMs NoSignal ;;
  if negb (Result_eqb Success result) then
    Logger_err_ (no_response func) ;;;
    ret (Some value)
  else ret None.

(** [WAIT_FOR_OPTIONAL_SERVER_RESPONSE(func, value)]: every path returns
    from the enclosing function, with the value given here. *)
Definition WAIT_FOR_OPTIONAL_SERVER_RESPONSE (func : string)
           (value : HRESULT) : Exec HRESULT :=
  if getSendAllServerResponses then
    early <- WAIT_FOR_SERVER_RESPONSE func value ;;
    match early with
    | Some v => ret v
    | None => w <- get_data ;; ret (to_HRESULT w)
    end
  else ret D3D_OK.

(** A reading member run for its effect. *)
Definition read_op (op : ReadOp) : Exec unit :=
  match op with
  | Read_word => get_data ;;; ret tt
  | Read_obj => get_data_obj ;;; ret tt
  | Read_copy obj checkSize => copy_data cfg obj checkSize ;;; ret tt
  end.

(** The reads of a list, one after the other. *)
Fixpoint read_all (ops : list ReadOp) : Exec unit :=
  match ops with
  | [] => ret tt
  | op :: rest => read_op op ;;; read_all rest
  end.

Definition send_op (op : SendOp) : Exec unit :=
  match op with
  | Send_word obj => send_data obj
  | Send_blob size payload => send_data_blob cfg size payload
  | Send_many objs => send_many objs
  | Begin_blob size => begin_data_blob cfg size ;;; ret tt
  | End_blob => end_data_blob
  end.

(** The sends of a list, one after the other. *)
Fixpoint send_all (ops : list SendOp) : Exec unit :=
  match ops with
  | [] => ret tt
  | op :: rest => send_op op ;;; send_all rest
  end.

(** The reservation a push has to follow: the word count and the
    [posResetOnLastIndex] argument of the [syncDataQueue] before it. *)
Definition reservation_for (c : Call) : option (size_t * bool) :=
  match c with
  | Data_push _ => Some (1, false)
  | Data_push_many objs => Some (Z.of_nat (List.length objs), false)
  | Data_push_blob size _ => Some (memUsed cfg size, true)
  | Data_begin_blob_push size => Some (memUsed cfg size, true)
  | _ => None
  end.

Definition reserves (prev : option Call) (need : size_t * bool) : bool :=
  match prev with
  | Some (SyncDataQueue n b) => (n =? fst need) && Bool.eqb b (snd need)
  | _ => false
  end.

(** Every push in the record is immediately preceded by its reservation;
    [prev] is the call before the first one of the list. *)
Fixpoint reserved_after (prev : option Call) (tr : list Call) : bool :=
  match tr with
  | [] => true
  | c :: rest =>
      match reservation_for c with
      | Some need => reserves prev need
      | None => true
      end && reserved_after (Some c) rest
  end.

Definition every_push_reserved (tr : list Call) : bool :=
  reserved_after None tr.

(** Two states agree on everything but the reader channel's data queue and
    loop flag. *)
Definition same_outside_reader_data (s s' : State) : Prop :=
  gbBridgeRunning s' = gbBridgeRunning s /\
  s_pWriterChannel s' = s_pWriterChannel s /\
  commands (s_pReaderChannel s') = commands (s_pReaderChannel s) /\
  env s' = env s.

(** Two states agree on everything but the writer channel's command
    queue. *)
Definition same_outside_writer_commands (s s' : State) : Prop :=
  gbBridgeRunning s' = gbBridgeRunning s /\
  data (s_pWriterChannel s') = data (s_pWriterChannel s) /\
  serverResetPosRequired (s_pWriterChannel s') =
    serverResetPosRequired (s_pWriterChannel s) /\
  s_pReaderChannel s' = s_pReaderChannel s /\
  env s' = env s.

(** Two states agree on everything but the reader channel's data queue. *)
Definition same_outside_reader_queue (s s' : State) : Prop :=
  same_outside_reader_data s s' /\
  serverResetPosRequired (s_pReaderChannel s') =
    serverResetPosRequired (s_pReaderChannel s).

End Callers.

(** Modelled from the spec: the configuration collaborator, with a 50 ms
    acknowledgment timeout and all server responses requested. *)
#[global] Instance modelOptions : GlobalOptions := {|
  getAckTimeout := 50;
  getSendAllServerResponses := true
|}.

Module Replies.

(** A client whose server has already answered: a response header is at the
    front of the reader's command queue and the result word 0x8876086C
    (D3DERR_INVALIDCALL) is the next data word. *)
Definition answered : Model.MachineT :=
  mkMachine
    (mkBridgeState true
       (mkChannel Model.emptyCommands (Model.emptyData 8) false)
       (mkChannel (Model.mkCommandQueue [Scenario.response] 0 None)
          (Model.mkDataQueue 8 0 [2289436780] false None) false)
       Model.quiet)
    [].

(** A build without USE_BLOCKING_QUEUE. *)
Definition nonBlocking : BuildConfig := mkBuildConfig false true 64.

(** A command's life: one word, a 20-byte blob, two more words, and a
    4-byte blob written in place. *)
Definition program : list SendOp :=
  [Send_word 9; Send_blob 20 Scenario.twentyBytes; Send_many [1; 2];
   Begin_blob 4; End_blob].

(** Three reads on the reader of [Scenario.beforeWrap]. *)
Definition reads : list ReadOp :=
  [Read_copy Scenario.fourBytes true; Read_word; Read_obj].

End Replies.

(** * Properties *)

Section Properties.

Context {CmdQ DataQ Env : Type}.
Context {cmdq_ops : CommandQueueOps CmdQ}.
Context {dataq_ops : DataQueueOps DataQ}.
Context {bridge_impl : BridgeImpl (BridgeState CmdQ DataQ Env)}.
Context {util : UtilCommon}.
Variable cfg : BuildConfig.

Local Abbreviation Machine := (Machine CmdQ DataQ Env).

Lemma machine_eta (m : Machine) : mkMachine (bridge m) (calls m) = m.
Proof. now destruct m. Qed.

(** The loop check is a function of the flag and of the two positions. *)
Lemma check_server_loop_spec (prevPos : size_t) (m : Machine) :
  check_server_loop prevPos m =
  Returns tt
    (if loop_flag m && (reader_pos m <? prevPos)
     then mkMachine (set_reader_flag false (bridge m)) (calls m)
     else m).
Proof.
  unfold check_server_loop, and_then, reader_flag, get_data_pos, bind, read,
    when, clear_reader_flag, run, ret, loop_flag, reader_pos, reader_queue.
  destruct (serverResetPosRequired (s_pReaderChannel (bridge m))); simpl;
    [destruct (_ <? prevPos); simpl |]; reflexivity.
Qed.

(** A pull followed by the loop check acknowledges a wrap. *)
Lemma pull_then_check (cs : list Call) (q : DataQ) (m : Machine) :
  let pulled := mkMachine (set_reader_data q (bridge m)) cs in
  forall m',
    check_server_loop (reader_pos m) pulled = Returns tt m' ->
    reader_queue m' = q /\ calls m' = cs /\ acknowledges_wrap m m'.
Proof.
  intros pulled m'. rewrite check_server_loop_spec.
  assert (Hf : loop_flag pulled = loop_flag m) by reflexivity.
  assert (Hp : reader_pos pulled = data_get_pos q) by reflexivity.
  rewrite Hf, Hp. intros H. injection H as <-.
  unfold acknowledges_wrap, cleared, wrapped.
  destruct (loop_flag m) eqn:Ef; simpl;
    [destruct (Z.ltb_spec (data_get_pos q) (reader_pos m)) as [Hlt | Hge] |];
    (split; [reflexivity |]); (split; [reflexivity |]).
  all: subst pulled; clear Hf Hp;
    unfold loop_flag, reader_pos, reader_queue in *; simpl in *;
    intuition (try congruence; try lia).
Qed.

Lemma check_server_loop_returns (prevPos : size_t) (m : Machine) :
  exists m', check_server_loop prevPos m = Returns tt m'.
Proof. rewrite check_server_loop_spec. eauto. Qed.

(** [get_data] is the pull followed by the loop check. *)
Lemma get_data_spec (m : Machine) :
  get_data m =
  bind (check_server_loop (reader_pos m))
       (fun _ => ret (fst (data_pull (reader_queue m))))
       (mkMachine (set_reader_data (snd (data_pull (reader_queue m)))
                                   (bridge m))
                  (calls m ++ [Data_pull])).
Proof.
  unfold get_data, get_data_pos, on_reader_data, record_call, run, read, bind,
    reader_pos, reader_queue; simpl.
  destruct (data_pull (data (s_pReaderChannel (bridge m)))); reflexivity.
Qed.

Lemma get_data_obj_spec (m : Machine) :
  get_data_obj m =
  bind (check_server_loop (reader_pos m))
       (fun _ => ret (fst (data_pull_obj (reader_queue m))))
       (mkMachine (set_reader_data (snd (data_pull_obj (reader_queue m)))
                                   (bridge m))
                  (calls m ++ [Data_pull_obj])).
Proof.
  unfold get_data_obj, get_data_pos, on_reader_data, record_call, run, read,
    bind, reader_pos, reader_queue; simpl.
  destruct (data_pull_obj (data (s_pReaderChannel (bridge m)))); reflexivity.
Qed.

(** [copy_data] stops at the assertion when it is compiled in, the size is
    checked and the sizes differ; otherwise it is the pull, the log line on a
    checked mismatch, and the loop check. *)
Lemma copy_data_spec (obj : bytes) (checkSize : bool) (m : Machine) :
  let r := data_pull_and_copy obj (reader_queue m) in
  let mismatch := checkSize && negb (fst (fst r) =? sizeof obj) in
  let pulled :=
    mkMachine (set_reader_data (snd r) (bridge m))
              (calls m ++ [Data_pull_and_copy (sizeof obj)]) in
  let logged :=
    mkMachine (set_reader_data (snd r) (bridge m))
              (calls m ++ Data_pull_and_copy (sizeof obj) ::
                 (if mismatch then [Logger_err copy_data_size_mismatch]
                  else [])) in
  copy_data cfg obj checkSize m =
  if mismatch && negb (NDEBUG cfg) then Aborts pulled
  else bind (check_server_loop (reader_pos m))
            (fun _ => ret (return_as_size_ref cfg (fst (fst r)),
                           snd (fst r)))
            logged.
Proof.
  unfold copy_data, get_data_pos, on_reader_data, record_call, run, read,
    bind, when, assert_, Logger_err_, reader_pos, reader_queue; simpl.
  destruct (data_pull_and_copy obj (data (s_pReaderChannel (bridge m))))
    as [[size obj'] q]; simpl.
  destruct checkSize, (NDEBUG cfg), (size =? sizeof obj); simpl;
    rewrite <- ?app_assoc; reflexivity.
Qed.

(** C1, as amended (get_data, get_data(outObjectSlot), copy_data): every
    call of the two get_data overloads, and every call of copy_data that its
    assertion does not stop (the assertion is compiled out, or the size is
    not checked, or the sizes agree), pulls from the queue as it stood when
    the position was recorded, and clears the reader's loop flag if and only
    if the flag was set before the call and the position after the pull is
    strictly below the recorded one; otherwise the flag keeps its value.  A
    copy_data call stopped at its assertion has pulled too, does not return,
    and leaves the flag as it was. *)
Theorem loop_flag_cleared_iff_wrapped_unless_stopped
        (obj : bytes) (checkSize : bool) (m : Machine) :
  (exists m',
      get_data m = Returns (fst (data_pull (reader_queue m))) m' /\
      reader_queue m' = snd (data_pull (reader_queue m)) /\
      acknowledges_wrap m m') /\
  (exists m',
      get_data_obj m = Returns (fst (data_pull_obj (reader_queue m))) m' /\
      reader_queue m' = snd (data_pull_obj (reader_queue m)) /\
      acknowledges_wrap m m') /\
  let r := data_pull_and_copy obj (reader_queue m) in
  let done := final (copy_data cfg obj checkSize m) in
  reader_queue done = snd r /\
  if checkSize && negb (fst (fst r) =? sizeof obj) && negb (NDEBUG cfg)
  then returned (copy_data cfg obj checkSize m) = None /\
       loop_flag done = loop_flag m
  else (exists v, copy_data cfg obj checkSize m = Returns v done) /\
       acknowledges_wrap m done.
Proof.
  split; [| split].
  - rewrite get_data_spec. unfold bind.
    destruct (check_server_loop_returns (reader_pos m)
                (mkMachine (set_reader_data (snd (data_pull (reader_queue m)))
                                            (bridge m))
                           (calls m ++ [Data_pull]))) as [m' Hm'].
    rewrite Hm'. exists m'. split; [reflexivity |].
    apply pull_then_check in Hm'. tauto.
  - rewrite get_data_obj_spec. unfold bind.
    destruct (check_server_loop_returns (reader_pos m)
                (mkMachine
                   (set_reader_data (snd (data_pull_obj (reader_queue m)))
                                    (bridge m))
                   (calls m ++ [Data_pull_obj]))) as [m' Hm'].
    rewrite Hm'. exists m'. split; [reflexivity |].
    apply pull_then_check in Hm'. tauto.
  - cbv zeta. rewrite copy_data_spec. cbv zeta.
    set (r := data_pull_and_copy obj (reader_queue m)).
    destruct (checkSize && negb (fst (fst r) =? sizeof obj) &&
              negb (NDEBUG cfg)) eqn:Estop.
    + simpl. repeat split; reflexivity.
    + unfold bind.
      match goal with
      | |- context [check_server_loop ?p ?x] =>
          destruct (check_server_loop_returns p x) as [m' Hm'];
          rewrite Hm'; apply pull_then_check in Hm'
      end.
      unfold ret. simpl. destruct Hm' as (Hq & _ & Hack).
      split; [exact Hq |]. split; [eexists; reflexivity | exact Hack].
Qed.

(** C10 (get_data, get_data(outObjectSlot), copy_data): across each call the
    reader's loop flag keeps its value or goes from set to clear; it never
    goes from clear to set.  This holds of the state [copy_data] leaves
    behind when it stops at its assertion as well. *)
Theorem loop_flag_never_raised
        (obj : bytes) (checkSize : bool) (m : Machine) :
  never_raised m (final (get_data m)) /\
  never_raised m (final (get_data_obj m)) /\
  never_raised m (final (copy_data cfg obj checkSize m)).
Proof.
  assert (Hstep : forall p x,
             loop_flag x = loop_flag m ->
             never_raised m (final (bind (check_server_loop p)
                                         (fun _ => ret (A := unit) tt) x))).
  { intros p x Hx. unfold bind. rewrite check_server_loop_spec.
    unfold never_raised, cleared. rewrite Hx.
    destruct (loop_flag m) eqn:Ef; simpl;
      [destruct (reader_pos x <? p); simpl |];
      unfold loop_flag in *; simpl; auto. }
  assert (Hfinal : forall A (v : A) p (x : Machine),
             final (bind (check_server_loop p) (fun _ => ret v) x) =
             final (bind (check_server_loop p)
                         (fun _ => ret (A := unit) tt) x)).
  { intros. unfold bind. rewrite check_server_loop_spec. reflexivity. }
  split; [| split].
  - rewrite get_data_spec, Hfinal. now apply Hstep.
  - rewrite get_data_obj_spec, Hfinal. now apply Hstep.
  - rewrite copy_data_spec. cbv zeta.
    destruct (_ && negb (NDEBUG cfg)).
    + left. reflexivity.
    + rewrite Hfinal. now apply Hstep.
Qed.

(** Unfolds the monadic plumbing of a member function. *)
Ltac step_through :=
  unfold bind, ret, when, read, run, record_call, on_writer_data,
    on_reader_data, on_writer_commands, Logger_err_, syncDataQueue,
    running, log_on_failure in *;
  simpl in *.

(** C2 (send_data(word), send_data(size, ptr), send_many, begin_data_blob,
    end_data_blob): with gbBridgeRunning false each of them returns and
    leaves the machine as it found it: the channel state is the same and no
    call (no syncDataQueue, no push, no log) has been made. *)
Theorem sends_are_noops_when_not_running
        (word size : DataT) (payload : bytes) (objs : list DataT)
        (blobSize : size_t) (m : Machine) :
  running m = false ->
  send_data word m = Returns tt m /\
  send_data_blob cfg size payload m = Returns tt m /\
  send_many objs m = Returns tt m /\
  (exists p, begin_data_blob cfg blobSize m = Returns p m) /\
  end_data_blob m = Returns tt m.
Proof.
  intros Hoff.
  unfold send_data, send_data_blob, send_many, begin_data_blob,
    end_data_blob.
  step_through. rewrite Hoff.
  repeat split; try reflexivity. now exists nullptr.
Qed.

(** C9 (begin_data_blob): with gbBridgeRunning false the pointer returned is
    null, whatever the size. *)
Theorem begin_data_blob_null_when_not_running (size : size_t) (m : Machine) :
  running m = false ->
  returned (begin_data_blob cfg size m) = Some nullptr.
Proof.
  intros Hoff. unfold begin_data_blob. step_through.
  now rewrite Hoff.
Qed.

(** C5 (begin_batch, end_batch, begin_read_data, end_read_data): with
    gbBridgeRunning false they return Failure, 0, Failure and 0, with or
    without USE_BLOCKING_QUEUE, and the machine is left as it was: no queue
    member has been called. *)
Theorem batches_fail_when_not_running (m : Machine) :
  running m = false ->
  begin_batch cfg m = Returns Failure m /\
  end_batch cfg m = Returns 0 m /\
  begin_read_data m = Returns Failure m /\
  end_read_data m = Returns 0 m.
Proof.
  intros Hoff.
  unfold begin_batch, end_batch, begin_read_data, end_read_data.
  destruct (USE_BLOCKING_QUEUE cfg); step_through; rewrite Hoff;
    repeat split; reflexivity.
Qed.

Lemma count_app (p : Call -> bool) (l1 l2 : list Call) :
  count p (l1 ++ l2) = (count p l1 + count p l2)%nat.
Proof. unfold count. now rewrite filter_app, length_app. Qed.

(** C3 (waitForCommandAndDiscard): for every command filter, timeout and
    early-out signal the wrapper returns the result code of the wait it
    makes; on Success it goes on with exactly one pop_front, on Timeout and
    Failure it makes none and ends in the machine the wait ended in. *)
Theorem waitForCommandAndDiscard_follows_wait
        (cmd : D3D9Command) (overrideTimeoutMS : DWORD)
        (pbEarlyOutSignal : AtomicBoolPtr) (m : Machine) :
  exists result m1 m',
    waitForCommand cmd overrideTimeoutMS pbEarlyOutSignal m =
      Returns result m1 /\
    waitForCommandAndDiscard cmd overrideTimeoutMS pbEarlyOutSignal m =
      Returns result m' /\
    match result with
    | Success =>
        (exists h, pop_front m1 = Returns h m') /\
        count is_pop_front (calls m') =
          (count is_pop_front (calls m) + 1)%nat
    | _ =>
        m' = m1 /\
        count is_pop_front (calls m') = count is_pop_front (calls m)
    end.
Proof.
  unfold waitForCommandAndDiscard, waitForCommand, pop_front.
  step_through.
  destruct (impl_waitForCommand cmd overrideTimeoutMS pbEarlyOutSignal
                                (bridge m)) as [result s1] eqn:Ew.
  destruct result; simpl.
  - destruct (impl_pop_front s1) as [h s2] eqn:Ep.
    do 3 eexists. split; [reflexivity |]. split; [reflexivity |].
    split; [eexists; simpl; rewrite Ep; reflexivity |].
    simpl. rewrite !count_app. unfold count. simpl. lia.
  - do 3 eexists. split; [reflexivity |]. split; [reflexivity |].
    split; [reflexivity |]. simpl. rewrite count_app. unfold count. simpl. lia.
  - do 3 eexists. split; [reflexivity |]. split; [reflexivity |].
    split; [reflexivity |]. simpl. rewrite count_app. unfold count. simpl. lia.
Qed.

(** No wrap-around happens in [memUsed] once [align] stays in [size_t]. *)
Lemma memUsed_exact (size : size_t) :
  0 < size_bits cfg ->
  0 <= align size sizeof_DataT < 2 ^ size_bits cfg ->
  memUsed cfg size = align size sizeof_DataT / sizeof_DataT + 1.
Proof.
  intros Hbits [Hlo Hhi]. unfold memUsed, size_wrap, sizeof_DataT in *.
  apply Z.mod_small.
  assert (H2 : 2 <= 2 ^ size_bits cfg).
  { change 2 with (2 ^ 1) at 1. apply Z.pow_le_mono_r; lia. }
  split.
  - assert (0 <= align size 4 / 4) by (apply Z.div_pos; lia). lia.
  - destruct (Z.eq_dec (align size 4) 0) as [E | E].
    + rewrite E. simpl. lia.
    + assert (align size 4 / 4 < align size 4)
        by (apply Z.div_lt; lia).
      lia.
Qed.

(** C4 (send_data(size, ptr), begin_data_blob(size)): while the bridge runs,
    both reserve exactly align(n, sizeof(DataT)) / sizeof(DataT) + 1 words
    through syncDataQueue with posResetOnLastIndex = true, and only then
    push: the push is the next call and acts on the queue the reservation
    left; a log line follows it when the push failed.  [align] is taken to
    return a [size_t]. *)
Theorem blob_sends_reserve_aligned_words
        (n : Z) (payload : bytes) (m : Machine) :
  running m = true ->
  0 < size_bits cfg ->
  0 <= align n sizeof_DataT < 2 ^ size_bits cfg ->
  let words := align n sizeof_DataT / sizeof_DataT + 1 in
  let synced := impl_syncDataQueue words true (bridge m) in
  let pushed := data_push_blob n payload (data (s_pWriterChannel synced)) in
  let begun :=
    data_begin_blob_push n nullptr (data (s_pWriterChannel synced)) in
  send_data_blob cfg n payload m =
    Returns tt
      (mkMachine (set_writer_data (snd pushed) synced)
         (calls m ++ SyncDataQueue words true :: Data_push_blob n payload ::
            log_on_failure (fst pushed) send_data_object_failed)) /\
  begin_data_blob cfg n m =
    Returns (snd (fst begun))
      (mkMachine (set_writer_data (snd begun) synced)
         (calls m ++ SyncDataQueue words true :: Data_begin_blob_push n ::
            log_on_failure (fst (fst begun)) begin_data_blob_failed)).
Proof.
  intros Hon Hbits Hrange. cbv zeta.
  rewrite <- (memUsed_exact n Hbits Hrange).
  unfold send_data_blob, begin_data_blob. step_through. rewrite Hon.
  step_through.
  split.
  - destruct (data_push_blob n payload _) as [result q]; simpl.
    destruct (RESULT_FAILURE result); simpl;
      rewrite <- ?app_assoc; reflexivity.
  - destruct (data_begin_blob_push n nullptr _) as [[result p] q]; simpl.
    destruct (RESULT_FAILURE result); simpl;
      rewrite <- ?app_assoc; reflexivity.
Qed.

(** C6 (send_data(word), send_many): while the bridge runs, send_data calls
    syncDataQueue(1, false) and then pushes its one word, send_many calls
    syncDataQueue(count, false) with count the number of items and then
    pushes them; in both the push is the next call after the reservation,
    acts on the queue the reservation left, and is the only push made. *)
Theorem word_sends_reserve_what_they_push
        (word : DataT) (objs : list DataT) (m : Machine) :
  running m = true ->
  let synced1 := impl_syncDataQueue 1 false (bridge m) in
  let pushed1 := data_push word (data (s_pWriterChannel synced1)) in
  let count_ := Z.of_nat (List.length objs) in
  let syncedN := impl_syncDataQueue count_ false (bridge m) in
  let pushedN := data_push_many objs (data (s_pWriterChannel syncedN)) in
  send_data word m =
    Returns tt
      (mkMachine (set_writer_data (snd pushed1) synced1)
         (calls m ++ SyncDataQueue 1 false :: Data_push word ::
            log_on_failure (fst pushed1) send_data_failed)) /\
  send_many objs m =
    Returns tt
      (mkMachine (set_writer_data (snd pushedN) syncedN)
         (calls m ++ SyncDataQueue count_ false :: Data_push_many objs ::
            log_on_failure (fst pushedN) send_many_failed)).
Proof.
  intros Hon. cbv zeta.
  unfold send_data, send_many. step_through. rewrite Hon. step_through.
  split.
  - destruct (data_push word _) as [result q]; simpl.
    destruct (RESULT_FAILURE result); simpl;
      rewrite <- ?app_assoc; reflexivity.
  - destruct (data_push_many objs _) as [result q]; simpl.
    destruct (RESULT_FAILURE result); simpl;
      rewrite <- ?app_assoc; reflexivity.
Qed.

(** C7, as amended (copy_data): whenever the assertion cannot stop the call
    (it is compiled out, or the size is not checked, or the sizes agree),
    copy_data completes and returns to its caller; the only calls it has
    made are the pull and, when the size is checked and differs from
    sizeof(T), one Logger::err after it.  So a checked mismatch is logged and
    absorbed in a build without assertions, and nothing is logged with
    checkSize false or with matching sizes.  What the returned reference
    refers to is left out of this statement. *)
Theorem copy_data_logs_and_absorbs_mismatch
        (obj : bytes) (checkSize : bool) (m : Machine) :
  NDEBUG cfg = true \/ checkSize = false \/
    fst (fst (data_pull_and_copy obj (reader_queue m))) = sizeof obj ->
  let r := data_pull_and_copy obj (reader_queue m) in
  exists v m',
    copy_data cfg obj checkSize m = Returns v m' /\
    calls m' =
      calls m ++ Data_pull_and_copy (sizeof obj) ::
        (if checkSize && negb (fst (fst r) =? sizeof obj)
         then [Logger_err copy_data_size_mismatch] else []).
Proof.
  intros Hok. cbv zeta. rewrite copy_data_spec. cbv zeta.
  set (r := data_pull_and_copy obj (reader_queue m)) in *.
  assert (Hgo : checkSize && negb (fst (fst r) =? sizeof obj)
                && negb (NDEBUG cfg) = false).
  { destruct Hok as [H | [H | H]]; rewrite H.
    - now rewrite andb_false_r.
    - reflexivity.
    - rewrite Z.eqb_refl. now rewrite andb_false_r. }
  rewrite Hgo. unfold bind.
  match goal with
  | |- context [check_server_loop ?p ?x] =>
      destruct (check_server_loop_returns p x) as [m' Hm'];
      rewrite Hm'; apply pull_then_check in Hm'
  end.
  eexists. exists m'. split; [reflexivity | tauto].
Qed.

End Properties.

(** ** The out-of-line wait, as modelled *)

Section Waiting.

Local Abbreviation reader_commands s := (commands (s_pReaderChannel s)).

Lemma tick_keeps_popped (s : Model.State) :
  Model.popped (reader_commands (Model.tick s)) =
  Model.popped (reader_commands s).
Proof.
  unfold Model.tick.
  destruct (Model.schedule (env s)) as [| t rest]; [reflexivity |].
  destruct t; reflexivity.
Qed.

(** A successful poll ends with a matching header at the front and has not
    moved the pop position. *)
Lemma wait_poll_success (budget : nat) (expected : D3D9Command)
      (sig : AtomicBoolPtr) :
  forall s s',
    Model.wait_poll budget expected sig s = (Success, s') ->
    Model.front_matches expected s' = true /\
    Model.popped (reader_commands s') = Model.popped (reader_commands s).
Proof.
  induction budget as [| b IH]; intros s s' H; simpl in H;
    destruct (gbBridgeRunning s); simpl in H; try discriminate;
    destruct (Model.front_matches expected s) eqn:Ef;
    try (injection H as <-; now split);
    destruct (Model.signalled sig s); try discriminate.
  apply IH in H as [Hm Hp]. split; [exact Hm |].
  now rewrite Hp, tick_keeps_popped.
Qed.

(** C8 (waitForCommand, modelled from the spec): when a wait returns Success
    the pop position of the reader's command queue is where it was before
    the call and the header at the front matches the filter; it is removed
    only by a separate pop_front, which returns that header and advances the
    pop position by one. *)
Theorem waitForCommand_success_leaves_header
        (expected : D3D9Command) (timeoutMs : DWORD) (sig : AtomicBoolPtr)
        (m m' : Model.MachineT) :
  waitForCommand expected timeoutMs sig m = Returns Success m' ->
  Model.popped (reader_commands (bridge m')) =
    Model.popped (reader_commands (bridge m)) /\
  exists h,
    Model.front (reader_commands (bridge m')) = Some h /\
    Model.matches expected h = true /\
    exists m'',
      pop_front m' = Returns h m'' /\
      Model.popped (reader_commands (bridge m'')) =
        S (Model.popped (reader_commands (bridge m'))).
Proof.
  unfold waitForCommand, pop_front, bind, record_call, run; simpl.
  unfold Model.waitForCommand.
  destruct (Model.wait_poll _ expected sig (bridge m)) as [r s1] eqn:Ew.
  intros H. injection H as -> <-. simpl.
  apply wait_poll_success in Ew as [Hm Hp]. split; [exact Hp |].
  unfold Model.front_matches in Hm.
  destruct (Model.front (reader_commands s1)) as [h |] eqn:Eh;
    [| discriminate].
  exists h. split; [reflexivity |]. split; [exact Hm |].
  eexists. split.
  - unfold Model.pop_front. simpl. unfold Model.front in Eh.
    rewrite (nth_error_nth _ _ Model.noHeader Eh). reflexivity.
  - reflexivity.
Qed.

End Waiting.

(** ** The theorems at work on the concrete queues *)

Lemma sends_are_noops_when_not_running_witness :
  running (Model.boot false) = false /\
  send_data 7 (Model.boot false) = Returns tt (Model.boot false) /\
  send_data_blob Model.release 4 Scenario.fourBytes (Model.boot false) =
    Returns tt (Model.boot false) /\
  send_many [1; 2; 3] (Model.boot false) = Returns tt (Model.boot false) /\
  (exists p,
      begin_data_blob Model.release 20 (Model.boot false) =
        Returns p (Model.boot false)) /\
  end_data_blob (Model.boot false) = Returns tt (Model.boot false).
Proof.
  split; [reflexivity |].
  apply (sends_are_noops_when_not_running
           Model.release 7 4 Scenario.fourBytes [1; 2; 3] 20
           (Model.boot false)).
  reflexivity.
Defined.

Lemma begin_data_blob_null_when_not_running_witness :
  running (Model.boot false) = false /\
  returned (begin_data_blob Model.release 20 (Model.boot false)) =
    Some nullptr.
Proof.
  split; [reflexivity |].
  apply (begin_data_blob_null_when_not_running
           Model.release 20 (Model.boot false)).
  reflexivity.
Defined.

Lemma batches_fail_when_not_running_witness :
  running (Model.boot false) = false /\
  begin_batch Model.release (Model.boot false) =
    Returns Failure (Model.boot false) /\
  end_batch Model.release (Model.boot false) = Returns 0 (Model.boot false) /\
  begin_read_data (Model.boot false) = Returns Failure (Model.boot false) /\
  end_read_data (Model.boot false) = Returns 0 (Model.boot false).
Proof.
  split; [reflexivity |].
  apply (batches_fail_when_not_running Model.release (Model.boot false)).
  reflexivity.
Defined.

(** The 20-byte blob of the spec's scenario takes 6 words. *)
Lemma blob_sends_reserve_aligned_words_witness :
  running (Model.boot true) = true /\
  0 < size_bits Model.release /\
  0 <= align 20 sizeof_DataT < 2 ^ size_bits Model.release /\
  calls (final (send_data_blob Model.release 20 Scenario.twentyBytes
                               (Model.boot true))) =
    [SyncDataQueue 6 true; Data_push_blob 20 Scenario.twentyBytes] /\
  calls (final (begin_data_blob Model.release 20 (Model.boot true))) =
    [SyncDataQueue 6 true; Data_begin_blob_push 20].
Proof.
  assert (Hon : running (Model.boot true) = true) by reflexivity.
  assert (Hbits : 0 < size_bits Model.release) by reflexivity.
  assert (Hrange : 0 <= align 20 sizeof_DataT < 2 ^ size_bits Model.release)
    by (vm_compute; split; [discriminate | reflexivity]).
  pose proof (blob_sends_reserve_aligned_words
                Model.release 20 Scenario.twentyBytes (Model.boot true)
                Hon Hbits Hrange) as H.
  cbv zeta in H. destruct H as [Hsend Hbegin].
  rewrite Hsend, Hbegin.
  split; [exact Hon |]. split; [exact Hbits |]. split; [exact Hrange |].
  split; reflexivity.
Defined.

Lemma word_sends_reserve_what_they_push_witness :
  running (Model.boot true) = true /\
  calls (final (send_data 9 (Model.boot true))) =
    [SyncDataQueue 1 false; Data_push 9] /\
  calls (final (send_many [1; 2; 3] (Model.boot true))) =
    [SyncDataQueue 3 false; Data_push_many [1; 2; 3]].
Proof.
  assert (Hon : running (Model.boot true) = true) by reflexivity.
  pose proof (word_sends_reserve_what_they_push
                9 [1; 2; 3] (Model.boot true) Hon) as H.
  cbv zeta in H. destruct H as [Hone Hmany].
  rewrite Hone, Hmany.
  repeat split; reflexivity.
Defined.

(** In a release build the 8-byte blob copied into a 4-byte object is logged
    and the call returns. *)
Lemma copy_data_logs_and_absorbs_mismatch_witness :
  NDEBUG Model.release = true /\
  exists v m',
    copy_data Model.release Scenario.fourBytes true
              Scenario.eightBytesPending =
      Returns v m' /\
    calls m' =
      [Data_pull_and_copy 4; Logger_err copy_data_size_mismatch].
Proof.
  split; [reflexivity |].
  exact (copy_data_logs_and_absorbs_mismatch
           Model.release Scenario.fourBytes true Scenario.eightBytesPending
           (or_introl eq_refl)).
Defined.

(** C7 as stated fails in a build with assertions: the same checked mismatch
    stops the process at the assertion, so the call does not return and
    nothing is logged. *)
Lemma copy_data_checked_mismatch_stops_at_assert :
  fst (fst (data_pull_and_copy Scenario.fourBytes
              (reader_queue Scenario.eightBytesPending))) = 8 /\
  sizeof Scenario.fourBytes = 4 /\
  ~ (exists v m',
        copy_data Model.debug Scenario.fourBytes true
                  Scenario.eightBytesPending = Returns v m') /\
  count is_log
        (calls (final (copy_data Model.debug Scenario.fourBytes true
                                 Scenario.eightBytesPending))) = 0%nat.
Proof.
  split; [reflexivity |]. split; [reflexivity |]. split; [| reflexivity].
  intros (v & m' & H). vm_compute in H. discriminate H.
Qed.

(** C1 as stated fails in a build with assertions: the flag is set, the
    pull of the 8-byte blob takes the position from 6 down to 1, and the
    call is stopped at the assertion before the loop check, so the flag is
    still set. *)
Lemma copy_data_stopped_after_wrap_keeps_flag :
  loop_flag Scenario.eightBytesBeforeWrap = true /\
  reader_pos Scenario.eightBytesBeforeWrap = 6 /\
  reader_pos (final (copy_data Model.debug Scenario.fourBytes true
                               Scenario.eightBytesBeforeWrap)) = 1 /\
  loop_flag (final (copy_data Model.debug Scenario.fourBytes true
                              Scenario.eightBytesBeforeWrap)) = true /\
  ~ acknowledges_wrap
      Scenario.eightBytesBeforeWrap
      (final (copy_data Model.debug Scenario.fourBytes true
                        Scenario.eightBytesBeforeWrap)).
Proof.
  split; [reflexivity |]. split; [reflexivity |]. split; [reflexivity |].
  split; [reflexivity |].
  intros [[_ Hclear] _].
  assert (Hwrap : wrapped Scenario.eightBytesBeforeWrap
                    (final (copy_data Model.debug Scenario.fourBytes true
                                      Scenario.eightBytesBeforeWrap)))
    by (split; reflexivity).
  apply Hclear in Hwrap. destruct Hwrap as [_ Hoff]. discriminate Hoff.
Qed.

(** The peer's response arrives during the wait and is still at the front
    afterwards. *)
Lemma waitForCommand_success_leaves_header_witness :
  exists m',
    waitForCommand Bridge_Response 0 NoSignal Scenario.awaitingResponse =
      Returns Success m' /\
    Model.popped (commands (s_pReaderChannel (bridge m'))) =
      Model.popped
        (commands (s_pReaderChannel (bridge Scenario.awaitingResponse))) /\
    exists h,
      Model.front (commands (s_pReaderChannel (bridge m'))) = Some h /\
      Model.matches Bridge_Response h = true /\
      exists m'',
        pop_front m' = Returns h m'' /\
        Model.popped (commands (s_pReaderChannel (bridge m''))) =
          S (Model.popped (commands (s_pReaderChannel (bridge m')))).
Proof.
  eexists. split; [reflexivity |].
  apply (waitForCommand_success_leaves_header
           Bridge_Response 0 NoSignal Scenario.awaitingResponse).
  reflexivity.
Defined.

(** The reader of the spec's scenario: position 6 of 8, loop flag set, a
    4-byte blob pending.  Copying it wraps the position to 0 and clears the
    flag. *)
Example copy_data_acknowledges_wrap :
  returned (copy_data Model.release Scenario.fourBytes true
                      Scenario.beforeWrap) = Some (Dangling, [1; 2; 3; 4]) /\
  reader_pos Scenario.beforeWrap = 6 /\
  reader_pos (final (copy_data Model.release Scenario.fourBytes true
                               Scenario.beforeWrap)) = 0 /\
  loop_flag Scenario.beforeWrap = true /\
  loop_flag (final (copy_data Model.release Scenario.fourBytes true
                              Scenario.beforeWrap)) = false.
Proof. repeat split. Qed.

(** The reference copy_data returns: to the size word where size_t is the
    32-bit type, to a temporary that is already gone where it is 64 bits
    wide. *)
Example copy_data_returned_reference :
  returned (copy_data (mkBuildConfig true true 32) Scenario.fourBytes true
                      Scenario.eightBytesPending) =
    Some (RefTo 8, [1; 2; 3; 4]) /\
  returned (copy_data (mkBuildConfig true true 64) Scenario.fourBytes true
                      Scenario.eightBytesPending) =
    Some (Dangling, [1; 2; 3; 4]).
Proof. repeat split. Qed.

(** A single word pulled at position 6 moves to 7: no wrap, the flag
    stays. *)
Example get_data_keeps_flag_before_wrap :
  returned (get_data Scenario.beforeWrap) = Some 4 /\
  reader_pos (final (get_data Scenario.beforeWrap)) = 7 /\
  loop_flag (final (get_data Scenario.beforeWrap)) = true.
Proof. repeat split. Qed.

(** The discard wrapper pops the response it waited for, and pops nothing
    when the wait for another command times out. *)
Example waitForCommandAndDiscard_runs :
  returned (waitForCommandAndDiscard Bridge_Response 0 NoSignal
                                     Scenario.awaitingResponse) =
    Some Success /\
  calls (final (waitForCommandAndDiscard Bridge_Response 0 NoSignal
                                         Scenario.awaitingResponse)) =
    [WaitForCommand Bridge_Response 0 NoSignal; Pop_front] /\
  returned (waitForCommandAndDiscard (Api 3) 5 NoSignal
                                     Scenario.awaitingResponse) =
    Some Timeout /\
  calls (final (waitForCommandAndDiscard (Api 3) 5 NoSignal
                                         Scenario.awaitingResponse)) =
    [WaitForCommand (Api 3) 5 NoSignal].
Proof. repeat split. Qed.

(** * Further properties of the header *)

Section CallerProperties.

Context {CmdQ DataQ Env : Type}.
Context {cmdq_ops : CommandQueueOps CmdQ}.
Context {dataq_ops : DataQueueOps DataQ}.
Context {bridge_impl : BridgeImpl (BridgeState CmdQ DataQ Env)}.
Context {util : UtilCommon}.
Context {options : GlobalOptions}.
Variable cfg : BuildConfig.

Local Abbreviation Machine := (Machine CmdQ DataQ Env).

Ltac step_exec :=
  unfold bind, ret, when, read, run, record_call, on_writer_data,
    on_reader_data, on_writer_commands, Logger_err_, syncDataQueue,
    waitForCommand, pop_front in *;
  simpl in *.

Lemma final_bind {A B} (c : Exec A) (k : A -> Exec B) (m : Machine) :
  final (bind c k m) =
  match c m with
  | Returns a m' => final (k a m')
  | Aborts m' => m'
  end.
Proof. unfold bind. now destruct (c m). Qed.

Lemma final_then_ret {A B} (c : Exec A) (v : B) (m : Machine) :
  final (bind c (fun _ => ret v) m) = final (c m).
Proof. rewrite final_bind. now destruct (c m). Qed.

(** Where the loop check leaves the machine. *)
Lemma final_after_check {A} (v : A) (p : size_t) (x : Machine) :
  final (bind (check_server_loop p) (fun _ => ret v) x) =
  if loop_flag x && (reader_pos x <? p)
  then mkMachine (set_reader_flag false (bridge x)) (calls x)
  else x.
Proof.
  rewrite final_then_ret, check_server_loop_spec. reflexivity.
Qed.

(** The machine after a pull of some kind and the loop check. *)
Lemma pulled_and_checked {A} (v : A) (q : DataQ) (c : Call)
      (log : list Call) (m : Machine) :
  is_pull c = true ->
  forallb is_log log = true ->
  let m' :=
    final (bind (check_server_loop (reader_pos m)) (fun _ => ret v)
                (mkMachine (set_reader_data q (bridge m))
                           (calls m ++ c :: log))) in
  same_outside_reader_data (bridge m) (bridge m') /\
  never_raised m m' /\
  count is_pull (calls m') = S (count is_pull (calls m)) /\
  calls m' = calls m ++ c :: log.
Proof.
  intros Hc Hlog m'. subst m'. rewrite final_after_check.
  assert (Hcount : count is_pull (calls m ++ c :: log) =
                   S (count is_pull (calls m))).
  { rewrite count_app. unfold count at 2. simpl. rewrite Hc. simpl.
    assert (Hnone : filter is_pull log = []).
    { clear - Hlog. induction log as [| l log IH]; [reflexivity |].
      simpl in *. apply andb_true_iff in Hlog as [Hl Hrest].
      destruct l; try discriminate. simpl. auto. }
    rewrite Hnone. simpl. lia. }
  destruct (loop_flag _ && _) eqn:E.
  - apply andb_true_iff in E as [Ef _].
    unfold same_outside_reader_data, never_raised, cleared, loop_flag in *.
    simpl in *. repeat split; auto.
  - unfold same_outside_reader_data, never_raised, cleared, loop_flag in *.
    simpl in *. repeat split; auto.
Qed.

(** What one read does, whichever of the three it is. *)
Lemma read_op_effect (op : ReadOp) (m : Machine) :
  let m' := final (read_op cfg op m) in
  same_outside_reader_data (bridge m) (bridge m') /\
  never_raised m m' /\
  count is_pull (calls m') = S (count is_pull (calls m)).
Proof.
  destruct op as [| | obj checkSize]; unfold read_op; cbv zeta;
    rewrite final_then_ret.
  - rewrite get_data_spec.
    pose proof (pulled_and_checked (fst (data_pull (reader_queue m)))
                  (snd (data_pull (reader_queue m))) Data_pull [] m
                  eq_refl eq_refl) as H.
    cbv zeta in H. tauto.
  - rewrite get_data_obj_spec.
    pose proof (pulled_and_checked (fst (data_pull_obj (reader_queue m)))
                  (snd (data_pull_obj (reader_queue m))) Data_pull_obj [] m
                  eq_refl eq_refl) as H.
    cbv zeta in H. tauto.
  - rewrite copy_data_spec. cbv zeta.
    set (r := data_pull_and_copy obj (reader_queue m)).
    destruct (checkSize && negb (fst (fst r) =? sizeof obj) &&
              negb (NDEBUG cfg)) eqn:Estop.
    + unfold same_outside_reader_data, never_raised, loop_flag. simpl.
      repeat split; auto.
      rewrite count_app. unfold count. simpl. lia.
    + match goal with
      | |- context [calls m ++ ?c :: ?log] =>
          pose proof (pulled_and_checked
                        (return_as_size_ref cfg (fst (fst r)), snd (fst r))
                        (snd r) c log m eq_refl)
            as H
      end.
      cbv zeta in H.
      destruct (checkSize && negb (fst (fst r) =? sizeof obj));
        specialize (H eq_refl); tauto.
Qed.

Lemma read_op_aborts (op : ReadOp) (m m1 : Machine) :
  read_op cfg op m = Aborts m1 -> NDEBUG cfg = false.
Proof.
  destruct op as [| | obj checkSize]; unfold read_op, bind.
  - rewrite get_data_spec. unfold bind. rewrite check_server_loop_spec.
    discriminate.
  - rewrite get_data_obj_spec. unfold bind. rewrite check_server_loop_spec.
    discriminate.
  - rewrite copy_data_spec. cbv zeta.
    destruct (_ && negb (NDEBUG cfg)) eqn:Estop.
    + intros _. apply andb_true_iff in Estop as [_ Hn].
      now apply negb_true_iff in Hn.
    + unfold bind. rewrite check_server_loop_spec. discriminate.
Qed.

(** X1 (get_data, get_data(outObjectSlot), copy_data): none of the three
    looks at gbBridgeRunning.  In every state each makes exactly one pull on
    the reader's data queue, and leaves gbBridgeRunning, the writer channel,
    the reader's command queue and the rest of the world as they were. *)
Theorem reads_pull_once_whatever_the_liveness
        (obj : bytes) (checkSize : bool) (m : Machine) :
  calls (final (get_data m)) = calls m ++ [Data_pull] /\
  same_outside_reader_data (bridge m) (bridge (final (get_data m))) /\
  calls (final (get_data_obj m)) = calls m ++ [Data_pull_obj] /\
  same_outside_reader_data (bridge m) (bridge (final (get_data_obj m))) /\
  count is_pull (calls (final (copy_data cfg obj checkSize m))) =
    S (count is_pull (calls m)) /\
  same_outside_reader_data
    (bridge m) (bridge (final (copy_data cfg obj checkSize m))).
Proof.
  pose proof (read_op_effect (Read_copy obj checkSize) m) as Hc.
  cbv zeta in Hc. unfold read_op in Hc. rewrite final_then_ret in Hc.
  rewrite get_data_spec, get_data_obj_spec.
  pose proof (pulled_and_checked (fst (data_pull (reader_queue m)))
                (snd (data_pull (reader_queue m))) Data_pull [] m
                eq_refl eq_refl) as Hw.
  pose proof (pulled_and_checked (fst (data_pull_obj (reader_queue m)))
                (snd (data_pull_obj (reader_queue m))) Data_pull_obj [] m
                eq_refl eq_refl) as Ho.
  cbv zeta in Hw, Ho. tauto.
Qed.

(** X2 (copy_data): in a build with assertions, a checked size mismatch
    stops the call right after the pull: the blob has been consumed from the
    queue, nothing has been logged, and the loop check has not run, so the
    loop flag is as it was. *)
Theorem copy_data_stops_after_the_pull (obj : bytes) (m : Machine) :
  NDEBUG cfg = false ->
  fst (fst (data_pull_and_copy obj (reader_queue m))) <> sizeof obj ->
  copy_data cfg obj true m =
    Aborts
      (mkMachine
         (set_reader_data (snd (data_pull_and_copy obj (reader_queue m)))
                          (bridge m))
         (calls m ++ [Data_pull_and_copy (sizeof obj)])) /\
  loop_flag (final (copy_data cfg obj true m)) = loop_flag m.
Proof.
  intros Hdebug Hsize. rewrite copy_data_spec. cbv zeta.
  apply Z.eqb_neq in Hsize. rewrite Hsize, Hdebug. simpl. split; reflexivity.
Qed.

Lemma never_raised_trans (a b c : Machine) :
  never_raised a b -> never_raised b c -> never_raised a c.
Proof.
  unfold never_raised, cleared.
  destruct (loop_flag a), (loop_flag b), (loop_flag c); intuition congruence.
Qed.

Lemma same_outside_reader_data_trans
      (a b c : BridgeState CmdQ DataQ Env) :
  same_outside_reader_data a b -> same_outside_reader_data b c ->
  same_outside_reader_data a c.
Proof.
  unfold same_outside_reader_data. intuition congruence.
Qed.

(** X3 (get_data, get_data(outObjectSlot), copy_data, in sequence): over any
    sequence of reads the loop flag keeps its value or falls from set to
    clear, so a flag that is clear stays clear until the writer sets it; and
    the sequence leaves gbBridgeRunning, the writer channel, the reader's
    command queue and the rest of the world untouched.  This holds as well
    when the sequence is cut short by copy_data's assertion. *)
Theorem reads_in_sequence_never_raise_flag (ops : list ReadOp) (m : Machine) :
  never_raised m (final (read_all cfg ops m)) /\
  same_outside_reader_data (bridge m) (bridge (final (read_all cfg ops m))).
Proof.
  revert m. induction ops as [| op rest IH]; intros m.
  - simpl. split; [now left | now repeat split].
  - simpl. rewrite final_bind.
    destruct (read_op_effect op m) as (Hframe & Hflag & _).
    destruct (read_op cfg op m) as [[] m1 | m1]; simpl in *.
    + destruct (IH m1) as [Hflag' Hframe']. split.
      * exact (never_raised_trans _ _ _ Hflag Hflag').
      * exact (same_outside_reader_data_trans _ _ _ Hframe Hframe').
    + now split.
Qed.

(** X4 (get_data, get_data(outObjectSlot), copy_data, in sequence): a
    sequence of reads that returns has made exactly one pull per read.  It
    can only be cut short in a build with assertions, and then it has made
    at least one pull and at most one per read. *)
Theorem reads_in_sequence_pull_once_each (ops : list ReadOp) (m : Machine) :
  match read_all cfg ops m with
  | Returns _ m' =>
      count is_pull (calls m') =
        (count is_pull (calls m) + List.length ops)%nat
  | Aborts m' =>
      NDEBUG cfg = false /\
      (count is_pull (calls m) < count is_pull (calls m'))%nat /\
      (count is_pull (calls m') <=
         count is_pull (calls m) + List.length ops)%nat
  end.
Proof.
  revert m. induction ops as [| op rest IH]; intros m.
  - simpl. unfold ret. lia.
  - simpl. unfold bind.
    destruct (read_op_effect op m) as (_ & _ & Hpull).
    destruct (read_op cfg op m) as [[] m1 | m1] eqn:Eop; simpl in *.
    + specialize (IH m1).
      destruct (read_all cfg rest m1) as [[] m2 | m2]; simpl in *.
      * lia.
      * destruct IH as (Hd & Hlo & Hhi). repeat split; [exact Hd | lia | lia].
    + apply read_op_aborts in Eop. repeat split; [exact Eop | lia | lia].
Qed.

(** A reservation followed by its push, and then only log lines, is well
    reserved whatever came before it. *)
Lemma reserved_segment (prev : option Call) (n : size_t) (b : bool)
      (c : Call) (log : list Call) :
  reservation_for cfg c = Some (n, b) ->
  forallb is_log log = true ->
  reserved_after cfg prev (SyncDataQueue n b :: c :: log) = true.
Proof.
  intros Hc Hlog. simpl. rewrite Hc. unfold reserves. simpl.
  rewrite Z.eqb_refl, eqb_reflx. simpl.
  clear Hc. revert c. induction log as [| l log IH]; intros c;
    [reflexivity |].
  simpl in *. apply andb_true_iff in Hlog as [Hl Hrest].
  destruct l; try discriminate. simpl. now apply IH.
Qed.

Lemma reserved_after_app (prev : option Call) (tr seg : list Call) :
  reserved_after cfg prev tr = true ->
  (forall p, reserved_after cfg p seg = true) ->
  reserved_after cfg prev (tr ++ seg) = true.
Proof.
  intros Htr Hseg. revert prev Htr.
  induction tr as [| c tr IH]; intros prev Htr; simpl in *.
  - apply Hseg.
  - apply andb_true_iff in Htr as [Hc Hrest].
    rewrite Hc. simpl. now apply IH.
Qed.

Lemma log_on_failure_is_log (result : Result) (msg : string) :
  forallb is_log (log_on_failure result msg) = true.
Proof. unfold log_on_failure. now destruct (RESULT_FAILURE result). Qed.

Lemma log_on_failure_is_command (result : Result) (msg : string) :
  forallb is_command_call (log_on_failure result msg) = true.
Proof. unfold log_on_failure. now destruct (RESULT_FAILURE result). Qed.

(** What one send does to the record of calls, whichever of the five it
    is. *)
Lemma send_op_effect (op : SendOp) (m : Machine) :
  exists m' seg,
    send_op cfg op m = Returns tt m' /\
    calls m' = calls m ++ seg /\
    forallb is_command_call seg = true /\
    (forall p, reserved_after cfg p seg = true).
Proof.
  destruct op as [obj | size payload | objs | size |]; unfold send_op.
  - unfold send_data. step_exec.
    destruct (gbBridgeRunning (bridge m)); step_exec.
    + destruct (data_push obj _) as [result q] eqn:Ep; simpl.
      exists (mkMachine (set_writer_data q
                           (impl_syncDataQueue 1 false (bridge m)))
                        (calls m ++ SyncDataQueue 1 false :: Data_push obj ::
                           log_on_failure result send_data_failed)).
      exists (SyncDataQueue 1 false :: Data_push obj ::
                log_on_failure result send_data_failed).
      split; [| split; [reflexivity | split]].
      * unfold log_on_failure. destruct (RESULT_FAILURE result); simpl;
          rewrite <- ?app_assoc; reflexivity.
      * simpl. apply log_on_failure_is_command.
      * intros p. apply reserved_segment;
          [reflexivity | apply log_on_failure_is_log].
    + exists m, []. rewrite app_nil_r. repeat split; reflexivity.
  - unfold send_data_blob. step_exec.
    destruct (gbBridgeRunning (bridge m)); step_exec.
    + destruct (data_push_blob size payload _) as [result q] eqn:Ep; simpl.
      exists (mkMachine (set_writer_data q
                           (impl_syncDataQueue (memUsed cfg size) true
                                               (bridge m)))
                        (calls m ++ SyncDataQueue (memUsed cfg size) true ::
                           Data_push_blob size payload ::
                           log_on_failure result send_data_object_failed)).
      exists (SyncDataQueue (memUsed cfg size) true ::
                Data_push_blob size payload ::
                log_on_failure result send_data_object_failed).
      split; [| split; [reflexivity | split]].
      * unfold log_on_failure. destruct (RESULT_FAILURE result); simpl;
          rewrite <- ?app_assoc; reflexivity.
      * simpl. apply log_on_failure_is_command.
      * intros p. apply reserved_segment;
          [reflexivity | apply log_on_failure_is_log].
    + exists m, []. rewrite app_nil_r. repeat split; reflexivity.
  - unfold send_many. step_exec.
    destruct (gbBridgeRunning (bridge m)); step_exec.
    + destruct (data_push_many objs _) as [result q] eqn:Ep; simpl.
      exists (mkMachine (set_writer_data q
                           (impl_syncDataQueue
                              (Z.of_nat (List.length objs)) false
                              (bridge m)))
                        (calls m ++
                           SyncDataQueue (Z.of_nat (List.length objs)) false ::
                           Data_push_many objs ::
                           log_on_failure result send_many_failed)).
      exists (SyncDataQueue (Z.of_nat (List.length objs)) false ::
                Data_push_many objs ::
                log_on_failure result send_many_failed).
      split; [| split; [reflexivity | split]].
      * unfold log_on_failure. destruct (RESULT_FAILURE result); simpl;
          rewrite <- ?app_assoc; reflexivity.
      * simpl. apply log_on_failure_is_command.
      * intros p. apply reserved_segment;
          [reflexivity | apply log_on_failure_is_log].
    + exists m, []. rewrite app_nil_r. repeat split; reflexivity.
  - unfold begin_data_blob. step_exec.
    destruct (gbBridgeRunning (bridge m)); step_exec.
    + destruct (data_begin_blob_push size nullptr _) as [[result p0] q]
        eqn:Ep; simpl.
      exists (mkMachine (set_writer_data q
                           (impl_syncDataQueue (memUsed cfg size) true
                                               (bridge m)))
                        (calls m ++ SyncDataQueue (memUsed cfg size) true ::
                           Data_begin_blob_push size ::
                           log_on_failure result begin_data_blob_failed)).
      exists (SyncDataQueue (memUsed cfg size) true ::
                Data_begin_blob_push size ::
                log_on_failure result begin_data_blob_failed).
      split; [| split; [reflexivity | split]].
      * unfold log_on_failure. destruct (RESULT_FAILURE result); simpl;
          rewrite <- ?app_assoc; reflexivity.
      * simpl. apply log_on_failure_is_command.
      * intros p. apply reserved_segment;
          [reflexivity | apply log_on_failure_is_log].
    + exists m, []. rewrite app_nil_r. repeat split; reflexivity.
  - unfold end_data_blob. step_exec.
    destruct (gbBridgeRunning (bridge m)); step_exec.
    + eexists. exists [Data_end_blob_push].
      split; [reflexivity |]. repeat split; reflexivity.
    + exists m, []. rewrite app_nil_r. repeat split; reflexivity.
Qed.

(** X5 (send_data(word), send_data(size, ptr), send_many, begin_data_blob,
    end_data_blob, in sequence): over any sequence of sends, whether the
    bridge runs or not and whether pushes fail or not, every push is
    immediately preceded by its own syncDataQueue call: (1, false) before a
    word, (number of items, false) before send_many's items, and
    (align(size, 4) / 4 + 1 in size_t arithmetic, true) before a blob. *)
Theorem sends_in_sequence_reserve_every_push
        (ops : list SendOp) (m : Machine) :
  every_push_reserved cfg (calls m) = true ->
  every_push_reserved cfg (calls (final (send_all cfg ops m))) = true.
Proof.
  revert m. induction ops as [| op rest IH]; intros m Hm.
  - exact Hm.
  - simpl. rewrite final_bind.
    destruct (send_op_effect op m) as (m1 & seg & Hrun & Hcalls & _ & Hseg).
    rewrite Hrun. apply IH. rewrite Hcalls.
    now apply reserved_after_app.
Qed.

(** X6 (the same five members, in sequence): a sequence of sends always
    returns: a failed push is logged and the next send goes ahead.  The only
    calls it makes are syncDataQueue, writer-side data queue members and
    Logger::err; it never pulls, waits, pops a header or opens a batch. *)
Theorem sends_in_sequence_return_and_stay_on_writer_side
        (ops : list SendOp) (m : Machine) :
  exists m' seg,
    send_all cfg ops m = Returns tt m' /\
    calls m' = calls m ++ seg /\
    forallb is_command_call seg = true.
Proof.
  revert m. induction ops as [| op rest IH]; intros m.
  - exists m, []. rewrite app_nil_r. repeat split; reflexivity.
  - simpl. unfold bind.
    destruct (send_op_effect op m) as (m1 & seg1 & Hrun & Hcalls & Hcmd & _).
    rewrite Hrun.
    destruct (IH m1) as (m2 & seg2 & Hrest & Hcalls2 & Hcmd2).
    exists m2, (seg1 ++ seg2). split; [exact Hrest |]. split.
    + now rewrite Hcalls2, Hcalls, app_assoc.
    + rewrite forallb_app. now rewrite Hcmd, Hcmd2.
Qed.

(** X7 (send_data(size, ptr), begin_data_blob): when [align] rounds up to
    the next multiple of 4 without overflowing size_t, the words reserved
    for a blob of [n] bytes are ceil(n / 4) for the payload plus one for the
    length: the reservation covers the payload and is never more than one
    payload word larger than needed. *)
Theorem memUsed_covers_the_payload (n : Z) :
  0 < size_bits cfg ->
  0 <= n ->
  align n sizeof_DataT mod sizeof_DataT = 0 ->
  n <= align n sizeof_DataT < n + sizeof_DataT ->
  align n sizeof_DataT < 2 ^ size_bits cfg ->
  memUsed cfg n = (n + 3) / 4 + 1 /\
  n <= sizeof_DataT * (memUsed cfg n - 1) < n + sizeof_DataT.
Proof.
  intros Hbits Hn Hmult [Hlo Hhi] Hfit.
  rewrite (memUsed_exact cfg n Hbits) by lia.
  unfold sizeof_DataT in *.
  assert (Ha : align n 4 = 4 * (align n 4 / 4))
    by (apply Z.div_exact; [lia | exact Hmult]).
  set (k := align n 4 / 4) in *.
  assert (Hk : (n + 3) / 4 = k).
  { symmetry. apply (Z.div_unique _ _ _ (n + 3 - 4 * k)); lia. }
  rewrite Hk. lia.
Qed.

(** X8 (begin_batch, end_batch): in a build without USE_BLOCKING_QUEUE
    batching is compiled out: begin_batch returns Failure and end_batch
    returns 0 in every state, also while the bridge runs, and the command
    queue is not called. *)
Theorem batches_are_compiled_out_without_blocking_queue (m : Machine) :
  USE_BLOCKING_QUEUE cfg = false ->
  begin_batch cfg m = Returns Failure m /\
  end_batch cfg m = Returns 0 m.
Proof.
  intros Hoff. unfold begin_batch, end_batch. rewrite Hoff.
  split; reflexivity.
Qed.

(** X9 (begin_batch, end_batch, begin_read_data, end_read_data): in every
    state and build, the write batch members change nothing but the writer's
    command queue, and the read batch members change nothing but the
    reader's data queue; in particular opening or closing a read batch
    never touches the loop flag.  All four always return. *)
Theorem batches_stay_on_their_queue (m : Machine) :
  (exists r m', begin_batch cfg m = Returns r m' /\
                same_outside_writer_commands (bridge m) (bridge m')) /\
  (exists n m', end_batch cfg m = Returns n m' /\
                same_outside_writer_commands (bridge m) (bridge m')) /\
  (exists r m', begin_read_data m = Returns r m' /\
                same_outside_reader_queue (bridge m) (bridge m')) /\
  (exists n m', end_read_data m = Returns n m' /\
                same_outside_reader_queue (bridge m) (bridge m')).
Proof.
  unfold begin_batch, end_batch, begin_read_data, end_read_data,
    same_outside_writer_commands, same_outside_reader_queue,
    same_outside_reader_data.
  repeat split.
  - destruct (USE_BLOCKING_QUEUE cfg); step_exec;
      [destruct (gbBridgeRunning (bridge m)) eqn:Erun; step_exec;
       [destruct (commands_begin_write_batch _) |] |];
      do 2 eexists; (split; [reflexivity | repeat split; simpl; congruence]).
  - destruct (USE_BLOCKING_QUEUE cfg); step_exec;
      [destruct (gbBridgeRunning (bridge m)) eqn:Erun; step_exec;
       [destruct (commands_end_write_batch _) |] |];
      do 2 eexists; (split; [reflexivity | repeat split; simpl; congruence]).
  - step_exec. destruct (gbBridgeRunning (bridge m)) eqn:Erun; step_exec;
      [destruct (data_begin_batch _) |];
      do 2 eexists; (split; [reflexivity | repeat split; simpl; congruence]).
  - step_exec. destruct (gbBridgeRunning (bridge m)) eqn:Erun; step_exec;
      [destruct (data_end_batch _) |];
      do 2 eexists; (split; [reflexivity | repeat split; simpl; congruence]).
Qed.

(** The response macro, run: what it returns and the machine it leaves. *)
Lemma WAIT_FOR_SERVER_RESPONSE_run
      {V : Type} (func : string) (value : V) (m : Machine) :
  WAIT_FOR_SERVER_RESPONSE func value m =
  match fst (impl_waitForCommand Bridge_Response getAckTimeout NoSignal
                                 (bridge m)) with
  | Success =>
      Returns None
        (mkMachine
           (snd (impl_pop_front
                   (snd (impl_waitForCommand Bridge_Response getAckTimeout
                                             NoSignal (bridge m)))))
           ((calls m ++
               [WaitForCommand Bridge_Response getAckTimeout NoSignal]) ++
              [Pop_front]))
  | _ =>
      Returns (Some value)
        (mkMachine
           (snd (impl_waitForCommand Bridge_Response getAckTimeout NoSignal
                                     (bridge m)))
           ((calls m ++
               [WaitForCommand Bridge_Response getAckTimeout NoSignal]) ++
              [Logger_err (no_response func)]))
  end.
Proof.
  unfold WAIT_FOR_SERVER_RESPONSE, waitForCommandAndDiscard.
  do 2 step_exec.
  destruct (impl_waitForCommand _ _ _ (bridge m)) as [[] s1]; simpl;
    try reflexivity.
  step_exec. now destruct (impl_pop_front s1).
Qed.

(** X10 (WAIT_FOR_SERVER_RESPONSE): the macro waits for Bridge_Response
    with the configured acknowledgment timeout and no early-out signal.  If
    the wait succeeds the response header is popped, nothing is logged and
    control falls through; on any other result the header queue is not
    popped, one "no response from server" line is logged and the enclosing
    function returns the given value. *)
Theorem WAIT_FOR_SERVER_RESPONSE_returns_early_without_response
        {V : Type} (func : string) (value : V) (m : Machine) :
  let w :=
    impl_waitForCommand Bridge_Response getAckTimeout NoSignal (bridge m) in
  let waited :=
    calls m ++ [WaitForCommand Bridge_Response getAckTimeout NoSignal] in
  WAIT_FOR_SERVER_RESPONSE func value m =
  match fst w with
  | Success =>
      Returns None
        (mkMachine (snd (impl_pop_front (snd w))) (waited ++ [Pop_front]))
  | _ =>
      Returns (Some value)
        (mkMachine (snd w) (waited ++ [Logger_err (no_response func)]))
  end.
Proof. cbv zeta. apply WAIT_FOR_SERVER_RESPONSE_run. Qed.

(** X11 (WAIT_FOR_OPTIONAL_SERVER_RESPONSE): without sendAllServerResponses
    the macro returns D3D_OK at once and calls nothing.  With it, a data
    word is pulled only after a successful wait and the pop of the response
    header, and that word, cast to HRESULT, is the value returned; after a
    failed wait no data is pulled, the state is what the wait left, and the
    given value is returned. *)
Theorem WAIT_FOR_OPTIONAL_SERVER_RESPONSE_pulls_only_after_response
        (func : string) (value : HRESULT) (m : Machine) :
  let w :=
    impl_waitForCommand Bridge_Response getAckTimeout NoSignal (bridge m) in
  let waited :=
    calls m ++ [WaitForCommand Bridge_Response getAckTimeout NoSignal] in
  let popped := snd (impl_pop_front (snd w)) in
  if getSendAllServerResponses then
    match fst w with
    | Success =>
        exists m',
          WAIT_FOR_OPTIONAL_SERVER_RESPONSE func value m =
            Returns
              (to_HRESULT (fst (data_pull (data (s_pReaderChannel popped)))))
              m' /\
          calls m' = waited ++ [Pop_front; Data_pull] /\
          reader_queue m' = snd (data_pull (data (s_pReaderChannel popped)))
    | _ =>
        WAIT_FOR_OPTIONAL_SERVER_RESPONSE func value m =
          Returns value
            (mkMachine (snd w) (waited ++ [Logger_err (no_response func)]))
    end
  else WAIT_FOR_OPTIONAL_SERVER_RESPONSE func value m = Returns D3D_OK m.
Proof.
  cbv zeta. unfold WAIT_FOR_OPTIONAL_SERVER_RESPONSE.
  destruct getSendAllServerResponses; [| reflexivity].
  destruct (impl_waitForCommand _ _ _ (bridge m)) as [[] s1] eqn:Ew; simpl;
    unfold bind at 1;
    rewrite (WAIT_FOR_SERVER_RESPONSE_run func value m), Ew; simpl;
    try reflexivity.
  unfold bind at 1. rewrite get_data_spec. unfold bind.
  match goal with
  | |- context [check_server_loop ?p ?x] =>
      destruct (check_server_loop_returns p x) as [m' Hm'];
      rewrite Hm'; apply pull_then_check in Hm'
  end.
  exists m'. unfold ret. split; [reflexivity |].
  destruct Hm' as (Hq & Hc & _). split.
  - rewrite Hc. simpl. now rewrite <- !app_assoc.
  - exact Hq.
Qed.

Lemma to_HRESULT_of_word (w : DataT) :
  0 <= w < 2 ^ 32 ->
  to_HRESULT w mod 2 ^ 32 = w /\
  - 2 ^ 31 <= to_HRESULT w < 2 ^ 31 /\
  (to_HRESULT w < 0 <-> 2 ^ 31 <= w).
Proof.
  intros Hw. unfold to_HRESULT. rewrite (Z.mod_small w) by exact Hw.
  destruct (Z.ltb_spec w (2 ^ 31)) as [Hlt | Hge].
  - rewrite Z.mod_small by lia. lia.
  - replace (w - 2 ^ 32) with (w + (-1) * 2 ^ 32) by lia.
    rewrite Z.mod_add by lia. rewrite Z.mod_small by lia. lia.
Qed.

(** X12 (WAIT_FOR_OPTIONAL_SERVER_RESPONSE): when the server's answer is
    returned, the HRESULT is the pulled 32-bit word read as a signed number:
    it lies in the signed 32-bit range, it is the word again modulo 2^32,
    and it is negative (a failure code) exactly when bit 31 of the word is
    set. *)
Theorem WAIT_FOR_OPTIONAL_SERVER_RESPONSE_returns_the_word_signed
        (func : string) (value : HRESULT) (m : Machine) :
  let w :=
    impl_waitForCommand Bridge_Response getAckTimeout NoSignal (bridge m) in
  let word :=
    fst (data_pull
           (data (s_pReaderChannel (snd (impl_pop_front (snd w)))))) in
  getSendAllServerResponses = true ->
  fst w = Success ->
  0 <= word < 2 ^ 32 ->
  exists hr m',
    WAIT_FOR_OPTIONAL_SERVER_RESPONSE func value m = Returns hr m' /\
    hr mod 2 ^ 32 = word /\
    - 2 ^ 31 <= hr < 2 ^ 31 /\
    (hr < 0 <-> 2 ^ 31 <= word).
Proof.
  cbv zeta. intros Hall Hok Hword.
  unfold WAIT_FOR_OPTIONAL_SERVER_RESPONSE. rewrite Hall.
  unfold bind at 1.
  rewrite (WAIT_FOR_SERVER_RESPONSE_run func value m), Hok.
  unfold bind at 1. rewrite get_data_spec. unfold bind.
  match goal with
  | |- context [check_server_loop ?p ?x] =>
      destruct (check_server_loop_returns p x) as [m' Hm'];
      rewrite Hm'
  end.
  eexists. exists m'. unfold ret. split; [reflexivity |].
  apply to_HRESULT_of_word. exact Hword.
Qed.

(** A send on a bridge that is not running changes nothing. *)
Lemma send_op_when_not_running (op : SendOp) (m : Machine) :
  running m = false -> send_op cfg op m = Returns tt m.
Proof.
  intros Hoff. unfold running in Hoff.
  destruct op; unfold send_op, send_data, send_data_blob, send_many,
    begin_data_blob, end_data_blob; step_exec; rewrite Hoff; reflexivity.
Qed.

(** X13 (the five sending members, in sequence): a whole sequence of sends
    issued while gbBridgeRunning is false returns with the machine
    unchanged: no send of the sequence reserves, pushes or logs, and none
    of them switches the flag back on for the next. *)
Theorem sends_in_sequence_are_noops_when_not_running
        (ops : list SendOp) (m : Machine) :
  running m = false ->
  send_all cfg ops m = Returns tt m.
Proof.
  intros Hoff. induction ops as [| op rest IH]; [reflexivity |].
  simpl. unfold bind. rewrite (send_op_when_not_running op m Hoff).
  exact IH.
Qed.

End CallerProperties.

(** X14 (kWriterChannelName, kReaderChannelName): the channel one role
    writes is the channel the other role reads, and never the channel it
    reads itself: the names of a role's writer and of a role's reader agree
    exactly when the two roles differ. *)
Theorem channel_names_pair_up (writer reader : BridgeRole) :
  kWriterChannelName writer = kReaderChannelName reader <->
  writer <> reader.
Proof.
  destruct writer, reader; simpl; split; intros H;
    try discriminate; try reflexivity; try congruence.
Qed.

(** ** The further properties at work on the concrete queues *)

Lemma copy_data_stops_after_the_pull_witness :
  NDEBUG Model.debug = false /\
  reader_pos (final (copy_data Model.debug Scenario.fourBytes true
                               Scenario.eightBytesPending)) = 3 /\
  calls (final (copy_data Model.debug Scenario.fourBytes true
                          Scenario.eightBytesPending)) =
    [Data_pull_and_copy 4] /\
  loop_flag (final (copy_data Model.debug Scenario.fourBytes true
                              Scenario.eightBytesPending)) =
    loop_flag Scenario.eightBytesPending.
Proof.
  assert (Hdebug : NDEBUG Model.debug = false) by reflexivity.
  assert (Hsize : fst (fst (data_pull_and_copy Scenario.fourBytes
                              (reader_queue Scenario.eightBytesPending))) <>
                  sizeof Scenario.fourBytes) by (vm_compute; discriminate).
  destruct (copy_data_stops_after_the_pull
              Model.debug Scenario.fourBytes Scenario.eightBytesPending
              Hdebug Hsize) as [Hrun Hflag].
  split; [exact Hdebug |]. rewrite Hrun in *.
  split; [reflexivity |]. split; [reflexivity | exact Hflag].
Defined.

(** The third send of the program does not fit the 8-word ring and the
    fourth finds it full: both are logged, and every push still follows its
    reservation. *)
Lemma sends_in_sequence_reserve_every_push_witness :
  every_push_reserved Model.release (calls (Model.boot true)) = true /\
  calls (final (send_all Model.release Replies.program (Model.boot true))) =
    [SyncDataQueue 1 false; Data_push 9;
     SyncDataQueue 6 true; Data_push_blob 20 Scenario.twentyBytes;
     SyncDataQueue 2 false; Data_push_many [1; 2];
     Logger_err send_many_failed;
     SyncDataQueue 2 true; Data_begin_blob_push 4;
     Logger_err begin_data_blob_failed;
     Data_end_blob_push] /\
  every_push_reserved Model.release
    (calls (final (send_all Model.release Replies.program
                            (Model.boot true)))) = true.
Proof.
  split; [reflexivity |]. split; [reflexivity |].
  apply (sends_in_sequence_reserve_every_push
           Model.release Replies.program (Model.boot true)).
  reflexivity.
Defined.

Lemma memUsed_covers_the_payload_witness :
  memUsed Model.release 20 = 6 /\
  20 <= sizeof_DataT * (memUsed Model.release 20 - 1) < 20 + sizeof_DataT.
Proof.
  apply (memUsed_covers_the_payload Model.release 20).
  - reflexivity.
  - discriminate.
  - reflexivity.
  - vm_compute. split; [discriminate | reflexivity].
  - reflexivity.
Defined.

Lemma batches_are_compiled_out_without_blocking_queue_witness :
  running (Model.boot true) = true /\
  begin_batch Replies.nonBlocking (Model.boot true) =
    Returns Failure (Model.boot true) /\
  end_batch Replies.nonBlocking (Model.boot true) =
    Returns 0 (Model.boot true).
Proof.
  split; [reflexivity |].
  apply (batches_are_compiled_out_without_blocking_queue
           Replies.nonBlocking (Model.boot true)).
  reflexivity.
Defined.

(** The server answered D3DERR_INVALIDCALL (0x8876086C): the macro returns
    it as the negative HRESULT -2005530516. *)
Lemma WAIT_FOR_OPTIONAL_SERVER_RESPONSE_returns_the_word_signed_witness :
  returned (WAIT_FOR_OPTIONAL_SERVER_RESPONSE "Present" 0 Replies.answered) =
    Some (-2005530516) /\
  exists hr m',
    WAIT_FOR_OPTIONAL_SERVER_RESPONSE "Present" 0 Replies.answered =
      Returns hr m' /\
    hr mod 2 ^ 32 = 2289436780 /\
    - 2 ^ 31 <= hr < 2 ^ 31 /\
    (hr < 0 <-> 2 ^ 31 <= 2289436780).
Proof.
  split; [reflexivity |].
  pose proof (WAIT_FOR_OPTIONAL_SERVER_RESPONSE_returns_the_word_signed
                "Present" 0 Replies.answered eq_refl eq_refl) as H.
  cbv zeta in H.
  change (fst (data_pull _)) with 2289436780 in H.
  apply H. split; [discriminate | reflexivity].
Defined.

(** Three reads from position 6 of 8: the copy wraps and clears the flag,
    the two reads after it leave it clear. *)
Example reads_in_sequence_run :
  returned (read_all Model.release Replies.reads Scenario.beforeWrap) =
    Some tt /\
  calls (final (read_all Model.release Replies.reads Scenario.beforeWrap)) =
    [Data_pull_and_copy 4; Data_pull; Data_pull_obj] /\
  loop_flag (final (read_all Model.release Replies.reads
                             Scenario.beforeWrap)) = false.
Proof. repeat split. Qed.

(** Without a response within the timeout the macro logs and returns the
    caller's value; no data word is pulled. *)
Example WAIT_FOR_OPTIONAL_SERVER_RESPONSE_times_out :
  returned (WAIT_FOR_OPTIONAL_SERVER_RESPONSE "Present" (-1)
                                              (Model.boot true)) =
    Some (-1) /\
  calls (final (WAIT_FOR_OPTIONAL_SERVER_RESPONSE "Present" (-1)
                                                  (Model.boot true))) =
    [WaitForCommand Bridge_Response 50 NoSignal;
     Logger_err "Present failed with: no response from server."].
Proof. repeat split. Qed.

Lemma sends_in_sequence_are_noops_when_not_running_witness :
  running (Model.boot false) = false /\
  send_all Model.release Replies.program (Model.boot false) =
    Returns tt (Model.boot false).
Proof.
  split; [reflexivity |].
  apply (sends_in_sequence_are_noops_when_not_running
           Model.release Replies.program (Model.boot false)).
  reflexivity.
Defined.
